(** * KanAIRy backend: a shallow embedding of the orchestration code

    The development follows the four Python modules of [backend/]:
    - [encryption.py]: the credential cipher (AES-256-GCM, base64 fields);
    - [metaapi_client.py]: the broker session manager and trade facade;
    - [appwrite_client.py]: the document store gateway;
    - [main.py]: the HTTP request handlers.

    Conventions.
    - A Python [str] is a Rocq [string] holding the text in (generalised)
      UTF-8; [bytes] is a [list ascii].  A lone surrogate code point, which
      Python admits in a [str], is held in its three byte form [ED A0..BF xx];
      it is exactly what [str.encode()] refuses.
    - A Python [dict] is a [gmap string value]; indexing [d[k]] raises
      [KeyError] on a missing key, [d.get(k, v)] does not.
    - Code that may raise returns a [result]; code that also mutates the
      process state (the session cache) or talks to an external service runs
      in the state-and-exception monad [M].
    - External services (the AEAD primitive, the MetaApi SDK, the remote
      document store) are interfaces: a type class each. *)

From Stdlib Require Import ZArith NArith List String Ascii Bool Lia.
From Stdlib Require Import Floats.SpecFloat.
From stdpp Require Import base option list gmap strings pretty.
Import ListNotations.

Local Open Scope string_scope.
Local Open Scope list_scope.

(** ** Values, exceptions, results *)

(** A Python [float] is an IEEE 754 binary64 number. *)
Definition float := spec_float.
Definition float_zero : float := S754_zero false.
Definition float_of_int (z : Z) : float := binary_normalize 53 1024 z 0 false.
(** [math.isfinite(f)]. *)
Definition isfinite (f : float) : bool :=
  match f with
  | S754_zero _ | S754_finite _ _ _ => true
  | S754_infinity _ | S754_nan => false
  end.

(** JSON-like Python values, as they travel between the handlers, the SDK
    and the document store. *)
#[warnings="-register-all"]
Inductive value :=
| VNone
| VBool (b : bool)
| VInt (z : Z)
| VFloat (f : float)
| VStr (s : string)
| VList (docs : list (gmap string value)).

Abbreviation dict := (gmap string value).

(** Truthiness of a value, as Python's [bool(v)] has it. *)
Definition truthy (v : value) : bool :=
  match v with
  | VNone => false
  | VBool b => b
  | VInt z => negb (z =? 0)%Z
  | VFloat f => match f with S754_zero _ => false | _ => true end
  | VStr s => negb (String.eqb s "")
  | VList l => match l with [] => false | _ => true end
  end.

(** The exception classes the code raises or meets. *)
Inductive exn :=
| PyException (msg : string)                 (* [Exception(msg)] *)
| KeyError (key : string)
| TypeError (msg : string)
| AttributeError (msg : string)
| ValueError (msg : string)
| UnicodeEncodeError
| UnicodeDecodeError
| BinasciiError (msg : string)
| InvalidTag
| ValidationError (field : string)           (* pydantic *)
| HTTPException (status_code : Z) (detail : string)
| SdkError (cls msg : string).               (* raised inside the MetaApi SDK *)

(** [str(e)]. *)
Definition exn_str (e : exn) : string :=
  match e with
  | PyException m => m
  | KeyError k => "'" ++ k ++ "'"
  | TypeError m => m
  | AttributeError m => m
  | ValueError m => m
  | UnicodeEncodeError => "'utf-8' codec can't encode character: surrogates not allowed"
  | UnicodeDecodeError => "'utf-8' codec can't decode byte: invalid start byte"
  | BinasciiError m => m
  | InvalidTag => ""
  | ValidationError f => "1 validation error: " ++ f
  | HTTPException c d => pretty c ++ ": " ++ d
  | SdkError _ m => m
  end.

Inductive result (A : Type) :=
| Ok (a : A)
| Raise (e : exn).
Arguments Ok {A} a.
Arguments Raise {A} e.

Definition rbind {A B} (r : result A) (k : A -> result B) : result B :=
  match r with
  | Ok a => k a
  | Raise e => Raise e
  end.

Declare Scope result_scope.
Delimit Scope result_scope with result.
Notation "x <- r ;; k" := (rbind r (fun x => k))
  (at level 100, r at next level, right associativity) : result_scope.

(** [d[k]]: indexing raises [KeyError]. *)
Definition getitem (d : dict) (k : string) : result value :=
  match d !! k with
  | Some v => Ok v
  | None => Raise (KeyError k)
  end.

(** [d.get(k, dflt)]. *)
Definition dict_get (d : dict) (k : string) (dflt : value) : value :=
  default dflt (d !! k).

(** [bool(d)] of a dict: empty dicts are falsy. *)
Definition dict_truthy (d : dict) : bool :=
  negb (bool_decide (d = ∅)).

(** A scalar that [json.dumps(v, allow_nan=False)] encodes: any but a NaN
    or an infinity.  [requests] encodes the body of a request that way and
    refuses, before anything is sent, a body that holds another float. *)
Definition json_scalar (v : value) : bool :=
  match v with
  | VFloat f => isfinite f
  | VList _ => false
  | _ => true
  end.

(** ** [encryption.py]: the credential cipher *)

Module encryption.

Abbreviation bytes := (list ascii).

(** *** UTF-8 *)

(** Well-formed UTF-8 (Unicode table 3-7): what [bytes.decode('utf-8')]
    accepts, and what [str.encode()] produces.  Overlong forms, encoded
    surrogates ([ED A0..BF xx]) and code points above U+10FFFF are refused. *)
Definition in_range (lo hi : N) (b : ascii) : bool :=
  let n := N_of_ascii b in ((lo <=? n) && (n <=? hi))%N.

Definition cont (b : ascii) : bool := in_range 128 191 b.

Fixpoint utf8_valid (bs : bytes) : bool :=
  match bs with
  | [] => true
  | b0 :: r0 =>
    if in_range 0 127 b0 then utf8_valid r0
    else match r0 with
    | [] => false
    | b1 :: r1 =>
      if in_range 194 223 b0 then cont b1 && utf8_valid r1
      else match r1 with
      | [] => false
      | b2 :: r2 =>
        if in_range 224 224 b0 then in_range 160 191 b1 && cont b2 && utf8_valid r2
        else if in_range 225 236 b0 then cont b1 && cont b2 && utf8_valid r2
        else if in_range 237 237 b0 then in_range 128 159 b1 && cont b2 && utf8_valid r2
        else if in_range 238 239 b0 then cont b1 && cont b2 && utf8_valid r2
        else match r2 with
        | [] => false
        | b3 :: r3 =>
          if in_range 240 240 b0
          then in_range 144 191 b1 && cont b2 && cont b3 && utf8_valid r3
          else if in_range 241 243 b0
          then cont b1 && cont b2 && cont b3 && utf8_valid r3
          else if in_range 244 244 b0
          then in_range 128 143 b1 && cont b2 && cont b3 && utf8_valid r3
          else false
        end
      end
    end
  end.

(** The text has a UTF-8 encoding: it holds no lone surrogate. *)
Definition encodable (s : string) : bool := utf8_valid (list_ascii_of_string s).

(** [s.encode()]: the UTF-8 bytes of the text; a [str] holding a lone
    surrogate raises [UnicodeEncodeError]. *)
Definition str_encode (s : string) : result bytes :=
  if encodable s then Ok (list_ascii_of_string s) else Raise UnicodeEncodeError.

(** [b.decode('utf-8')] (strict error handling). *)
Definition bytes_decode (bs : bytes) : result string :=
  if utf8_valid bs then Ok (string_of_list_ascii bs) else Raise UnicodeDecodeError.

(** *** base64 *)

(** The standard alphabet: sextet to character and back. *)
Definition b64_char (v : N) : ascii :=
  if (v <? 26)%N then ascii_of_N (65 + v)
  else if (v <? 52)%N then ascii_of_N (97 + (v - 26))
  else if (v <? 62)%N then ascii_of_N (48 + (v - 52))
  else if (v =? 62)%N then "+"%char
  else "/"%char.

Definition b64_value (c : ascii) : option N :=
  let n := N_of_ascii c in
  if in_range 65 90 c then Some (n - 65)%N
  else if in_range 97 122 c then Some (n - 97 + 26)%N
  else if in_range 48 57 c then Some (n - 48 + 52)%N
  else if (n =? 43)%N then Some 62%N
  else if (n =? 47)%N then Some 63%N
  else None.

(** [base64.b64encode(b)]: three bytes become four characters; the tail is
    padded with ['=']. *)
Fixpoint b64encode (bs : bytes) : bytes :=
  match bs with
  | [] => []
  | [a] =>
    let x := N_of_ascii a in
    [b64_char (x / 4); b64_char (x mod 4 * 16); "="%char; "="%char]
  | [a; b] =>
    let x := N_of_ascii a in
    let y := N_of_ascii b in
    [b64_char (x / 4); b64_char (x mod 4 * 16 + y / 16);
     b64_char (y mod 16 * 4); "="%char]
  | a :: b :: c :: rest =>
    let x := N_of_ascii a in
    let y := N_of_ascii b in
    let z := N_of_ascii c in
    b64_char (x / 4) :: b64_char (x mod 4 * 16 + y / 16)
      :: b64_char (y mod 16 * 4 + z / 64) :: b64_char (z mod 64)
      :: b64encode rest
  end%N.

(** [binascii.a2b_base64(s)] in its default, lenient mode: characters outside
    the alphabet are skipped, a complete pad sequence ends the input, and
    input that stops inside a quad raises [binascii.Error].
    [quad_pos] is the position inside the current quad, [leftchar] the bits
    carried over, [pads] the pad characters seen since the last data
    character. *)
Fixpoint a2b_base64 (s : bytes) (quad_pos : nat) (leftchar : N) (pads : nat)
  : result bytes :=
  match s with
  | [] =>
    match quad_pos with
    | O => Ok []
    | 1%nat => Raise (BinasciiError "Invalid base64-encoded string")
    | _ => Raise (BinasciiError "Incorrect padding")
    end
  | c :: s' =>
    if Ascii.eqb c "="%char then
      if (2 <=? quad_pos)%nat then
        if (4 <=? quad_pos + S pads)%nat then Ok []
        else a2b_base64 s' quad_pos leftchar (S pads)
      else a2b_base64 s' quad_pos leftchar pads
    else
      match b64_value c with
      | None => a2b_base64 s' quad_pos leftchar pads
      | Some v =>
        match quad_pos with
        | O => a2b_base64 s' 1 v 0
        | 1%nat =>
          (out <- a2b_base64 s' 2 (v mod 16)%N 0 ;;
           Ok (ascii_of_N (leftchar * 4 + v / 16) :: out))%result
        | 2%nat =>
          (out <- a2b_base64 s' 3 (v mod 4)%N 0 ;;
           Ok (ascii_of_N (leftchar * 16 + v / 4) :: out))%result
        | _ =>
          (out <- a2b_base64 s' 0 0%N 0 ;;
           Ok (ascii_of_N (leftchar * 64 + v) :: out))%result
        end
      end
  end.

(** [base64.b64decode(s)] on a [str]: the text must be ASCII, then
    [a2b_base64] decodes it. *)
Definition b64decode (s : string) : result bytes :=
  let cs := list_ascii_of_string s in
  if forallb (in_range 0 127) cs then a2b_base64 cs 0 0%N 0
  else Raise (ValueError "string argument should contain only ASCII characters").

(** *** AES-GCM *)

(** The AEAD primitive of the [cryptography] package, with the module level
    key.  GCM is counter mode under a keystream plus a GHASH tag over the
    ciphertext; the block cipher and the field arithmetic stay abstract. *)
Class AesGcm := {
  ENCRYPTION_KEY : bytes;
  (* byte [i] of the counter mode keystream under a key and an IV *)
  ctr_keystream : bytes -> bytes -> nat -> ascii;
  (* the 128 bit authentication tag of a ciphertext, as a number *)
  ghash : bytes -> bytes -> bytes -> N;
}.

Definition xor_byte (a b : ascii) : ascii :=
  match a, b with
  | Ascii a0 a1 a2 a3 a4 a5 a6 a7, Ascii b0 b1 b2 b3 b4 b5 b6 b7 =>
    Ascii (xorb a0 b0) (xorb a1 b1) (xorb a2 b2) (xorb a3 b3)
          (xorb a4 b4) (xorb a5 b5) (xorb a6 b6) (xorb a7 b7)
  end.

(** Big-endian bytes of a number, [n] of them. *)
Fixpoint be_bytes (n : nat) (x : N) : bytes :=
  match n with
  | O => []
  | S n' => be_bytes n' (x / 256)%N ++ [ascii_of_N (x mod 256)%N]
  end.

Section gcm.
Context `{AesGcm}.

(** Counter mode from keystream position [i] on. *)
Fixpoint ctr_xor (key iv : bytes) (i : nat) (data : bytes) : bytes :=
  match data with
  | [] => []
  | b :: data' => xor_byte b (ctr_keystream key iv i) :: ctr_xor key iv (S i) data'
  end.

Definition gcm_tag (key iv ct : bytes) : bytes := be_bytes 16 (ghash key iv ct).

(** [modes.GCM(iv)] and [modes.GCM(iv, tag)], up to [cipher.encryptor()]
    and [cipher.decryptor()]: the lengths are checked, that of the tag from
    below by the constructor and from above when the decryptor is made. *)
Definition gcm_mode (iv : bytes) (tag : option bytes) : result unit :=
  if (length iv <? 8)%nat || (128 <? length iv)%nat
  then Raise (ValueError "initialization_vector must be between 8 and 128 bytes")
  else match tag with
       | Some t =>
         if (length t <? 16)%nat
         then Raise (ValueError "Authentication tag must be 16 bytes or longer")
         else if (16 <? length t)%nat
         then Raise (ValueError "Authentication tag cannot be more than 16 bytes")
         else Ok tt
       | None => Ok tt
       end.

(** [encryptor.update(pt) + encryptor.finalize()] and [encryptor.tag]. *)
Definition gcm_encrypt (key iv pt : bytes) : bytes * bytes :=
  let ct := ctr_xor key iv 0 pt in
  (ct, gcm_tag key iv ct).

(** [decryptor.update(ct) + decryptor.finalize()]: [InvalidTag] unless the
    tag is the one of this ciphertext under this key and IV. *)
Definition gcm_decrypt (key iv tag ct : bytes) : result bytes :=
  if bool_decide (tag = gcm_tag key iv ct)
  then Ok (ctr_xor key iv 0 ct)
  else Raise InvalidTag.

(** The three stored fields. *)
Record encrypted_password := {
  encrypted : string;
  iv : string;
  auth_tag : string;
}.

(** [os.urandom(n)], drawing from the entropy the call consumes. *)
Definition urandom (rnd : nat -> ascii) (n : nat) : bytes := map rnd (seq 0 n).

(** [encrypt_password(password)]; [rnd] is the randomness of this call.
    The [try/except] of the source prints and re-raises. *)
Definition encrypt_password (rnd : nat -> ascii) (password : string)
  : result encrypted_password :=
  (let iv_bytes := urandom rnd 16 in
   _ <- gcm_mode iv_bytes None ;;
   pt <- str_encode password ;;
   let '(ciphertext, tag) := gcm_encrypt ENCRYPTION_KEY iv_bytes pt in
   enc <- bytes_decode (b64encode ciphertext) ;;
   iv64 <- bytes_decode (b64encode iv_bytes) ;;
   tag64 <- bytes_decode (b64encode tag) ;;
   Ok {| encrypted := enc; iv := iv64; auth_tag := tag64 |})%result.

(** [decrypt_password(encrypted, iv, auth_tag)]. *)
Definition decrypt_password (encrypted iv auth_tag : string) : result string :=
  (ciphertext <- b64decode encrypted ;;
   iv_bytes <- b64decode iv ;;
   tag <- b64decode auth_tag ;;
   _ <- gcm_mode iv_bytes (Some tag) ;;
   plaintext <- gcm_decrypt ENCRYPTION_KEY iv_bytes tag ciphertext ;;
   bytes_decode plaintext)%result.

End gcm.

End encryption.

(** ** State and exceptions *)

(** A computation over a mutable state [S] that may raise.  An exception
    does not undo what was written before it. *)
Definition M (S A : Type) : Type := S -> result A * S.

Definition ret {S A} (a : A) : M S A := fun st => (Ok a, st).
Definition raise {S A} (e : exn) : M S A := fun st => (Raise e, st).
Definition bind {S A B} (m : M S A) (k : A -> M S B) : M S B :=
  fun st => match m st with
            | (Ok a, st') => k a st'
            | (Raise e, st') => (Raise e, st')
            end.
Definition modify {S} (f : S -> S) : M S unit := fun st => (Ok tt, f st).
(** [try: m  except Exception as e: h e]. *)
Definition try_except {S A} (m : M S A) (h : exn -> M S A) : M S A :=
  fun st => match m st with
            | (Ok a, st') => (Ok a, st')
            | (Raise e, st') => h e st'
            end.
(** A pure computation that may raise, inside [M]. *)
Definition lift {S A} (r : result A) : M S A := fun st => (r, st).

Declare Scope monad_scope.
Delimit Scope monad_scope with M.
Notation "x <- m ;; k" := (bind m (fun x => k))
  (at level 100, m at next level, right associativity) : monad_scope.
Notation "m ;;; k" := (bind m (fun _ => k))
  (at level 100, right associativity) : monad_scope.

(** [f"{v:.2f}"]: only numbers take the format. *)
Definition format_2f (v : value) : result unit :=
  match v with
  | VInt _ | VFloat _ | VBool _ => Ok tt
  | VStr _ => Raise (ValueError "Unknown format code 'f' for object of type 'str'")
  | VNone | VList _ => Raise (TypeError "unsupported format string")
  end.

(** The case mapping of [str.lower()], [str.upper()] and
    [str.capitalize()] on ASCII letters; other characters are left as they
    are.  [lower] stands for [str.lower()] where the result is compared with
    "buy": no character outside ASCII lowers to one of its letters.  The
    full mappings of [upper] and [capitalize] belong to the runtime (see
    [Host] below). *)
Definition lower_char (c : ascii) : ascii :=
  if encryption.in_range 65 90 c then ascii_of_N (N_of_ascii c + 32) else c.
Definition upper_char (c : ascii) : ascii :=
  if encryption.in_range 97 122 c then ascii_of_N (N_of_ascii c - 32) else c.
Fixpoint str_map (f : ascii -> ascii) (s : string) : string :=
  match s with
  | EmptyString => EmptyString
  | String c s' => String (f c) (str_map f s')
  end.
Definition lower : string -> string := str_map lower_char.
Definition upper : string -> string := str_map upper_char.
Definition capitalize (s : string) : string :=
  match s with
  | EmptyString => EmptyString
  | String c s' => String (upper_char c) (lower s')
  end.

(** ** [metaapi_client.py]: the broker session manager and trade facade *)

Module metaapi_client.

(** A remote account record and the RPC connection opened on it. *)
Record account := {
  acc_id : string;
  acc_login : string;
  acc_server : string;
}.
Record connection := { conn_account : account }.

(** A cache entry [{'account': account, 'connection': connection}]. *)
Record session := {
  s_account : account;
  s_connection : connection;
}.

(** The calls the client issues to the MetaApi SDK. *)
Inductive sdk_call :=
| get_accounts_call
| create_account_call (args : dict)
| deploy_call (a : account)
| wait_deployed_call (a : account)
| wait_connected_call (a : account)
| get_rpc_connection_call (a : account)
| connect_call (c : connection)
| wait_synchronized_call (c : connection)
| get_account_information_call (c : connection)
| create_market_buy_order_call (c : connection) (symbol : string) (volume stop_loss take_profit : value)
| create_market_sell_order_call (c : connection) (symbol : string) (volume stop_loss take_profit : value)
| get_positions_call (c : connection)
| close_position_call (c : connection) (position_id : value).

(** The MetaApi SDK and the service behind it: what each call answers. *)
Class MetaApi := {
  api_get_accounts : result (list account);
  api_create_account : dict -> result account;
  account_deploy : account -> result unit;
  account_wait_deployed : account -> result unit;
  account_wait_connected : account -> result unit;
  account_get_rpc_connection : account -> result connection;
  connection_connect : connection -> result unit;
  connection_wait_synchronized : connection -> result unit;
  connection_get_account_information : connection -> result dict;
  connection_create_market_buy_order : connection -> string -> value -> value -> value -> result dict;
  connection_create_market_sell_order : connection -> string -> value -> value -> value -> result dict;
  connection_get_positions : connection -> result (list dict);
  connection_close_position : connection -> value -> result dict;
}.

(** The client object: [self.accounts], and (for the proofs only) the calls
    issued to the SDK so far, oldest first. *)
Record MetaAPIClient := {
  accounts : gmap string session;
  sdk_calls : list sdk_call;
}.

Definition new_client : MetaAPIClient := {| accounts := ∅; sdk_calls := [] |}.

(** An SDK call: it is recorded, and answers what the service answers. *)
Definition sdk {A} (c : sdk_call) (answer : result A) : M MetaAPIClient A :=
  fun self => (answer, {| accounts := accounts self; sdk_calls := sdk_calls self ++ [c] |}).

(** [self.accounts[login] = entry]. *)
Definition cache (login : string) (entry : session) : M MetaAPIClient unit :=
  modify (fun self => {| accounts := <[login := entry]> (accounts self);
                         sdk_calls := sdk_calls self |}).

Definition not_connected : exn := PyException "Account not connected".

(** [self.accounts[login]['connection']] behind the [login not in
    self.accounts] guard.  The keys of the cache are texts; a list or a dict
    cannot be looked up at all. *)
Definition cached_connection (login : value) (e : exn) : M MetaAPIClient connection :=
  fun self => match login with
              | VStr l =>
                match accounts self !! l with
                | Some entry => (Ok (s_connection entry), self)
                | None => (Raise e, self)
                end
              | VList _ => (Raise (TypeError "unhashable type"), self)
              | _ => (Raise e, self)
              end.

Section client.
Context `{MetaApi}.

(** The argument of [api_create_account]. *)
Definition new_account_args (login password server platform : string) : dict :=
  <["name" := VStr ("KanAIRY_" ++ login)]> (
  <["type" := VStr "cloud"]> (
  <["login" := VStr login]> (
  <["password" := VStr password]> (
  <["server" := VStr server]> (
  <["platform" := VStr platform]> (
  <["application" := VStr "KanAIRY"]> (
  <["magic" := VInt 123456]> (
  <["region" := VStr "new-york"]> ∅)))))))).

(** The loop over [existing_accounts]: the first record of this login and
    server. *)
Definition find_account (login server : string) (accs : list account) : option account :=
  List.find (fun acc => String.eqb (acc_login acc) login && String.eqb (acc_server acc) server) accs.

(** The body of the [try] block of [connect_account]. *)
Definition connect_sequence (login password server platform : string)
  : M MetaAPIClient dict :=
  (existing_accounts <- sdk get_accounts_call api_get_accounts ;;
   account <- match find_account login server existing_accounts with
              | Some acc => ret acc
              | None =>
                let args := new_account_args login password server platform in
                sdk (create_account_call args) (api_create_account args)
              end ;;
   sdk (deploy_call account) (account_deploy account) ;;;
   sdk (wait_deployed_call account) (account_wait_deployed account) ;;;
   sdk (wait_connected_call account) (account_wait_connected account) ;;;
   connection <- sdk (get_rpc_connection_call account) (account_get_rpc_connection account) ;;
   sdk (connect_call connection) (connection_connect connection) ;;;
   sdk (wait_synchronized_call connection) (connection_wait_synchronized connection) ;;;
   account_info <- sdk (get_account_information_call connection)
                       (connection_get_account_information connection) ;;
   cache login {| s_account := account; s_connection := connection |} ;;;
   balance <- lift (getitem account_info "balance") ;;
   lift (format_2f balance) ;;;
   equity <- lift (getitem account_info "equity") ;;
   lift (format_2f equity) ;;;
   ret (<["balance" := balance]> (
        <["equity" := equity]> (
        <["margin" := dict_get account_info "margin" (VInt 0)]> (
        <["freeMargin" := dict_get account_info "freeMargin" (VInt 0)]> (
        <["currency" := dict_get account_info "currency" (VStr "USD")]> (
        <["leverage" := dict_get account_info "leverage" (VInt 100)]> (
        <["name" := dict_get account_info "name" (VStr login)]> ∅))))))))%M.

(** [connect_account(login, password, server, platform)]. *)
Definition connect_account (login password server platform : string)
  : M MetaAPIClient dict :=
  try_except (connect_sequence login password server platform)
    (fun e => raise (PyException ("MetaAPI connection failed: " ++ exn_str e))).

(** [get_account_info(login)]; its handler prints and re-raises. *)
Definition get_account_info (login : value) : M MetaAPIClient dict :=
  try_except
    (connection <- cached_connection login
                     (PyException "Account not connected. Please connect first.") ;;
     account_info <- sdk (get_account_information_call connection)
                         (connection_get_account_information connection) ;;
     balance <- lift (getitem account_info "balance") ;;
     equity <- lift (getitem account_info "equity") ;;
     ret (<["balance" := balance]> (
          <["equity" := equity]> (
          <["margin" := dict_get account_info "margin" (VInt 0)]> (
          <["freeMargin" := dict_get account_info "freeMargin" (VInt 0)]> (
          <["currency" := dict_get account_info "currency" (VStr "USD")]> ∅))))))%M
    raise.

(** [place_trade(account_login, symbol, volume, action_type, stop_loss,
    take_profit)]: a market buy when the action is "buy" in any case, a
    market sell otherwise. *)
Definition place_trade (account_login : value) (symbol : string) (volume : value)
    (action_type : string) (stop_loss take_profit : value) : M MetaAPIClient dict :=
  try_except
    (connection <- cached_connection account_login not_connected ;;
     if String.eqb (lower action_type) "buy"
     then sdk (create_market_buy_order_call connection symbol volume stop_loss take_profit)
              (connection_create_market_buy_order connection symbol volume stop_loss take_profit)
     else sdk (create_market_sell_order_call connection symbol volume stop_loss take_profit)
              (connection_create_market_sell_order connection symbol volume stop_loss take_profit))%M
    raise.

(** [connection_get_positions(account_login)]. *)
Definition get_positions (account_login : value) : M MetaAPIClient (list dict) :=
  try_except
    (connection <- cached_connection account_login not_connected ;;
     sdk (get_positions_call connection) (connection_get_positions connection))%M
    raise.

(** [connection_close_position(account_login, position_id)]. *)
Definition close_position (account_login : value) (position_id : value)
  : M MetaAPIClient dict :=
  try_except
    (connection <- cached_connection account_login not_connected ;;
     sdk (close_position_call connection position_id)
         (connection_close_position connection position_id))%M
    raise.

End client.

End metaapi_client.

(** ** [appwrite_client.py]: the document store gateway *)

Module appwrite_client.

(** The collections, and the two kinds of path the gateway builds:
    [/databases/{db}/collections/{c}/documents] and [.../documents/{id}]. *)
Inductive collection := Users | Positions | Orders | News.
Inductive path :=
| documents (c : collection)
| document (c : collection) (id : string).

(** The gateway pastes an id into the URL as it is.  An id made of letters,
    digits, '-' and '_' (and not empty) is the last segment of the path and
    nothing else; of any other id a part may be read as a query, a fragment
    or further segments, and the document addressed is then another one.
    [document c id] is the path of such a plain id. *)
Definition plain_char (c : ascii) : bool :=
  encryption.in_range 48 57 c || encryption.in_range 65 90 c ||
  encryption.in_range 97 122 c || Ascii.eqb c "-" || Ascii.eqb c "_".
Definition plain_id (id : string) : bool :=
  negb (String.eqb id "") && forallb plain_char (list_ascii_of_string id).

(** The [params] of a listing: equality predicates
    [equal("attribute", "value")], in order, and the page size. *)
Record params := {
  queries : list (string * string);
  limit : option nat;
}.
Definition no_params : params := {| queries := []; limit := None |}.

(** The remote document store.  [faults] is what the transport does to the
    coming requests, one entry a request: [Some msg] is a
    [requests.exceptions.RequestException] whose text is [msg]. *)
Record store := {
  users : list dict;
  positions : list dict;
  orders : list dict;
  news : list dict;
  next_id : nat;
  faults : list (option string);
}.

Definition docs_of (db : store) (c : collection) : list dict :=
  match c with
  | Users => users db
  | Positions => positions db
  | Orders => orders db
  | News => news db
  end.

Definition set_docs (db : store) (c : collection) (l : list dict) : store :=
  match c with
  | Users => {| users := l; positions := positions db; orders := orders db;
                news := news db; next_id := next_id db; faults := faults db |}
  | Positions => {| users := users db; positions := l; orders := orders db;
                    news := news db; next_id := next_id db; faults := faults db |}
  | Orders => {| users := users db; positions := positions db; orders := l;
                 news := news db; next_id := next_id db; faults := faults db |}
  | News => {| users := users db; positions := positions db; orders := orders db;
               news := l; next_id := next_id db; faults := faults db |}
  end.

Definition bump_id (db : store) : store :=
  {| users := users db; positions := positions db; orders := orders db;
     news := news db; next_id := S (next_id db); faults := faults db |}.

Definition drop_fault (db : store) : store :=
  {| users := users db; positions := positions db; orders := orders db;
     news := news db; next_id := next_id db; faults := tail (faults db) |}.

(** What comes back from one HTTP exchange. *)
Inductive http_outcome :=
| Replied (content : option dict)   (* 2xx, with a JSON body or none *)
| Failed (msg : string).            (* transport error, or a status that
                                       [raise_for_status] turns into one *)

(** The attribute [k] of the document is the text [v]. *)
Definition attr_is (k v : string) (d : dict) : bool :=
  match d !! k with
  | Some (VStr s) => String.eqb s v
  | _ => false
  end.

Definition has_id (id : string) (d : dict) : bool := attr_is "$id" id d.

Definition matches (q : list (string * string)) (d : dict) : bool :=
  forallb (fun kv => attr_is kv.1 kv.2 d) q.

Definition page (limit : option nat) (l : list dict) : list dict :=
  match limit with
  | Some n => take n l
  | None => l
  end.

(** Modelled from the spec: the external document store, a service that is
    no code of the repository.  It answers faithfully: a listing returns the
    documents that satisfy every predicate, in insertion order; a create
    stores the document under a fresh ["$id"]; an update merges the given
    attributes into the document of that id; an absent id is a 404. *)
Definition serve (method : string) (p : path) (data : dict) (q : params)
    (db : store) : http_outcome * store :=
  match p with
  | documents c =>
    if String.eqb method "GET" then
      let found := List.filter (matches (queries q)) (docs_of db c) in
      (Replied (Some (<["total" := VInt (Z.of_nat (length found))]>
                      (<["documents" := VList (page (limit q) found)]> ∅))), db)
    else if String.eqb method "POST" then
      let doc := <["$id" := VStr ("doc" ++ pretty (next_id db))]> data in
      (Replied (Some doc), bump_id (set_docs db c (docs_of db c ++ [doc])))
    else (Failed "405 Client Error: Method Not Allowed", db)
  | document c id =>
    match List.find (has_id id) (docs_of db c) with
    | None => (Failed "404 Client Error: Not Found", db)
    | Some doc =>
      if String.eqb method "GET" then (Replied (Some doc), db)
      else if String.eqb method "PATCH" || String.eqb method "PUT" then
        (Replied (Some (data ∪ doc)),
         set_docs db c (map (fun d => if has_id id d then data ∪ d else d) (docs_of db c)))
      else if String.eqb method "DELETE" then
        (Replied None,
         set_docs db c (List.filter (fun d => negb (has_id id d)) (docs_of db c)))
      else (Failed "405 Client Error: Method Not Allowed", db)
    end
  end.

(** One exchange over the transport, which may fail before the store is
    reached. *)
Definition exchange (method : string) (p : path) (data : dict) (q : params)
    (db : store) : http_outcome * store :=
  match faults db with
  | Some msg :: _ => (Failed msg, drop_fault db)
  | _ => serve method p data q (drop_fault db)
  end.

(** [_make_request(method, path, data, params)]: every
    [RequestException] becomes the payload [{"error": str(e)}]; an
    unsupported method raises [ValueError], which is not caught here.  The
    body [data] is one that [requests] encodes (see [json_scalar]). *)
Definition _make_request (method : string) (p : path) (data : dict) (q : params)
  : M store dict :=
  if existsb (String.eqb method) ["GET"; "POST"; "PUT"; "DELETE"; "PATCH"] then
    fun db =>
      match exchange method p data q db with
      | (Replied (Some content), db') => (Ok content, db')
      | (Replied None, db') => (Ok ∅, db')
      | (Failed msg, db') => (Ok {["error" := VStr msg]}, db')
      end
  else raise (ValueError ("Unsupported method: " ++ method)).

(** [create_user(user_data)]. *)
Definition create_user (user_data : dict) : M store dict :=
  _make_request "POST" (documents Users) user_data no_params.

(** [get_user_by_broker_account(broker_account, server)]. *)
Definition get_user_by_broker_account (broker_account server : string)
  : M store (option dict) :=
  (result <- _make_request "GET" (documents Users) ∅
               {| queries := [("broker_account", broker_account); ("server", server)];
                  limit := Some 1 |} ;;
   match result !! "documents" with
   | Some (VList (doc :: _)) => ret (Some doc)
   | Some (VList []) | None => ret None
   | Some _ => raise (TypeError "documents is not a list")
   end)%M.

(** [get_user_by_id(user_id)]: the bare [except] turns an exception into
    [None]; an error payload is returned as it is. *)
Definition get_user_by_id (user_id : string) : M store (option dict) :=
  try_except
    (d <- _make_request "GET" (document Users user_id) ∅ no_params ;; ret (Some d))%M
    (fun _ => ret None).

(** [update_user(user_id, update_data)]. *)
Definition update_user (user_id : string) (update_data : dict) : M store dict :=
  _make_request "PATCH" (document Users user_id) update_data no_params.

(** [create_position(position_data)]. *)
Definition create_position (position_data : dict) : M store dict :=
  _make_request "POST" (documents Positions) position_data no_params.

(** *** Ordered listings, positions and news *)

(** The [params] of an ordered listing: the equality predicates, the
    ["orderField"] and ["orderType"], and the ["limit"] when one is sent. *)
Record listing := {
  list_queries : list (string * string);
  orderField : string;
  orderType : string;
  list_limit : option Z;
}.

(** How the store orders a listing: some rearrangement of the documents. *)
Class StoreOrder := {
  order_by : string -> string -> list dict -> list dict;
  order_by_perm field type l : order_by field type l ≡ₚ l;
}.

Definition page_of (limit : option Z) (l : list dict) : list dict :=
  match limit with
  | Some n => take (Z.to_nat n) l
  | None => l
  end.

(** Modelled from the spec: the external document store answering an
    ordered listing: the documents that satisfy every predicate, in the
    order asked for, cut at the limit. *)
Definition serve_listing `{StoreOrder} (c : collection) (q : listing) (db : store)
  : http_outcome * store :=
  let found := order_by (orderField q) (orderType q)
                 (List.filter (matches (list_queries q)) (docs_of db c)) in
  (Replied (Some (<["total" := VInt (Z.of_nat (length found))]>
                  (<["documents" := VList (page_of (list_limit q) found)]> ∅))), db).

(** [_make_request("GET", ".../documents", params=...)] with the
    parameters of an ordered listing. *)
Definition list_documents `{StoreOrder} (c : collection) (q : listing) : M store dict :=
  fun db =>
    match faults db with
    | Some msg :: _ => (Ok {["error" := VStr msg]}, drop_fault db)
    | _ =>
      match serve_listing c q (drop_fault db) with
      | (Replied (Some content), db') => (Ok content, db')
      | (Replied None, db') => (Ok ∅, db')
      | (Failed msg, db') => (Ok {["error" := VStr msg]}, db')
      end
    end.

(** [if status:] on an optional text: [None] and the empty text are
    falsy. *)
Definition given (o : option string) : option string :=
  match o with
  | Some s => if String.eqb s "" then None else Some s
  | None => None
  end.

(** [get_positions(user_id, status)]: the error payload of a failed
    listing has no "documents", so the result is then the empty list. *)
Definition get_positions `{StoreOrder} (user_id : string) (status : option string)
  : M store value :=
  (let queries :=
     [("user_id", user_id)] ++
     match given status with
     | Some s => [("status", s)]
     | None => []
     end in
   result <- list_documents Positions
     {| list_queries := queries; orderField := "opened_at"; orderType := "DESC";
        list_limit := None |} ;;
   ret (dict_get result "documents" (VList [])))%M.

(** [get_position_by_id(position_id)]. *)
Definition get_position_by_id (position_id : string) : M store (option dict) :=
  try_except
    (d <- _make_request "GET" (document Positions position_id) ∅ no_params ;;
     ret (Some d))%M
    (fun _ => ret None).

(** [update_position(position_id, update_data)]. *)
Definition update_position (position_id : string) (update_data : dict) : M store dict :=
  _make_request "PATCH" (document Positions position_id) update_data no_params.

(** [create_news(news_data)]. *)
Definition create_news (news_data : dict) : M store dict :=
  _make_request "POST" (documents News) news_data no_params.

(** [get_news(category, limit)]. *)
Definition get_news `{StoreOrder} (category : option string) (limit : Z) : M store value :=
  (let queries :=
     match given category with
     | Some c => [("category", c)]
     | None => []
     end in
   result <- list_documents News
     {| list_queries := queries; orderField := "published_at"; orderType := "DESC";
        list_limit := Some limit |} ;;
   ret (dict_get result "documents" (VList [])))%M.

End appwrite_client.

(** ** [main.py]: the request handlers *)

Module main.
Import encryption appwrite_client.

(** What the handlers take from the Python runtime. *)
Class Host := {
  utcnow_isoformat : string;             (* [datetime.utcnow().isoformat()] *)
  os_urandom : nat -> ascii;             (* the bytes [os.urandom] draws *)
  float_repr : float -> string;
  list_repr : list dict -> string;
  datetime : Type;
  fromisoformat : value -> result datetime;
  str_upper : string -> string;          (* [s.upper()] *)
  str_capitalize : string -> string;     (* [s.capitalize()] *)
}.

(** pydantic's field validation, as far as the handlers rely on it: a text
    is a valid [str], a float a valid [float], and so is an int that
    [float(z)] converts (one within the range of the floats). *)
Class Pydantic := {
  validate_str : value -> result string;
  validate_float : value -> result float;
  validate_str_text s : validate_str (VStr s) = Ok s;
  validate_float_float f : validate_float (VFloat f) = Ok f;
  validate_float_int z :
    isfinite (float_of_int z) = true -> validate_float (VInt z) = Ok (float_of_int z);
}.

(** [models.py]. *)
Record BrokerConnect := {
  login : string;
  password : string;
  server : string;
  broker : string;
  account_type : string;
  platform : string;
}.

Record TradeRequest := {
  trade_user_id : string;
  symbol : string;
  volume : float;
  type : string;
  stop_loss : option float;
  take_profit : option float;
}.

Record AccountInfoResponse := {
  user_id : string;
  broker_account : string;
  response_server : string;
  balance : float;
  equity : float;
  margin : float;
  free_margin : float;
  currency : string;
}.

Record ErrorResponse := {
  error : string;
  details : option string;
}.

(** What the client of the API receives. *)
Inductive http_response (A : Type) :=
| Success (body : A)                                     (* 200 *)
| JSONResponse (status_code : Z) (content : ErrorResponse).
Arguments Success {A} body.
Arguments JSONResponse {A} status_code content.

Definition status_of {A} (r : http_response A) : Z :=
  match r with
  | Success _ => 200
  | JSONResponse c _ => c
  end.

(** The process: the module level [metaapi_client] ([None] when
    [METAAPI_TOKEN] is not set) and the store behind [appwrite_client]. *)
Record world := {
  the_metaapi_client : option metaapi_client.MetaAPIClient;
  the_store : store;
}.

(** A gateway call. *)
Definition in_store {A} (m : M store A) : M world A :=
  fun w => let '(r, db) := m (the_store w) in
           (r, {| the_metaapi_client := the_metaapi_client w; the_store := db |}).

(** A method call on [metaapi_client]. *)
Definition with_client {A} (m : M metaapi_client.MetaAPIClient A) : M world A :=
  fun w => match the_metaapi_client w with
           | Some c => let '(r, c') := m c in
                       (r, {| the_metaapi_client := Some c'; the_store := the_store w |})
           | None => (Raise (AttributeError "'NoneType' object has no attribute"), w)
           end.

(** [if not metaapi_client: raise HTTPException(503, detail)]. *)
Definition require_client (detail : string) : M world unit :=
  fun w => match the_metaapi_client w with
           | Some _ => (Ok tt, w)
           | None => (Raise (HTTPException 503 detail), w)
           end.

(** The truth value of an [Optional[Dict]]: [None] and the empty dict are
    falsy. *)
Definition falsy_to_none (user : option dict) : option dict :=
  match user with
  | Some d => if dict_truthy d then Some d else None
  | None => None
  end.

(** [if not user: raise HTTPException(404, detail)]. *)
Definition found {S} (user : option dict) (detail : string) : M S dict :=
  match falsy_to_none user with
  | Some d => ret d
  | None => raise (HTTPException 404 detail)
  end.

Definition opt_float (o : option float) : value :=
  match o with
  | Some f => VFloat f
  | None => VNone
  end.

Section handlers.
Context `{Host} `{Pydantic} `{AesGcm} `{metaapi_client.MetaApi}.

(** [str(v)]. *)
Definition py_str (v : value) : string :=
  match v with
  | VStr s => s
  | VNone => "None"
  | VBool true => "True"
  | VBool false => "False"
  | VInt z => pretty z
  | VFloat f => float_repr f
  | VList l => list_repr l
  end.

(** [AccountInfoResponse(user_id=..., ...)]. *)
Definition new_AccountInfoResponse
    (user_id broker_account server balance equity margin free_margin currency : value)
  : result AccountInfoResponse :=
  (u <- validate_str user_id ;;
   a <- validate_str broker_account ;;
   s <- validate_str server ;;
   b <- validate_float balance ;;
   e <- validate_float equity ;;
   m <- validate_float margin ;;
   f <- validate_float free_margin ;;
   c <- validate_str currency ;;
   Ok {| user_id := u; broker_account := a; response_server := s; balance := b;
         equity := e; margin := m; free_margin := f; currency := c |})%result.

(** The text argument of [decrypt_password]: [b64decode] takes no other
    type. *)
Definition as_text (v : value) : result string :=
  match v with
  | VStr s => Ok s
  | _ => Raise (TypeError "argument should be a bytes-like object or ASCII string")
  end.

(** Lines 145 to 185 of [connect_broker]: the user of this login and server
    is looked up; when there is one, its id is reused and the stored
    password decrypted (the request's password standing in when that fails);
    when there is none, a user document is created from the request.  The
    result is [(user_id, decrypted_password)]. *)
Definition resolve_user (data : BrokerConnect) : M world (value * string) :=
  (existing_user <- in_store (get_user_by_broker_account (login data) (server data)) ;;
   match falsy_to_none existing_user with
   | Some user =>
       user_id <- lift (getitem user "$id") ;;
       decrypted_password <-
         try_except
           (lift (enc <- getitem user "encrypted_password" ;;
                  nonce <- getitem user "iv" ;;
                  tag <- getitem user "auth_tag" ;;
                  enc <- as_text enc ;;
                  nonce <- as_text nonce ;;
                  tag <- as_text tag ;;
                  decrypt_password enc nonce tag)%result)
           (fun _ => ret (password data)) ;;
       ret (user_id, decrypted_password)
   | None =>
     encrypted <- lift (encrypt_password os_urandom (password data)) ;;
     let user_data : dict :=
       <["broker_account" := VStr (login data)]> (
       <["encrypted_password" := VStr (encryption.encrypted encrypted)]> (
       <["iv" := VStr (encryption.iv encrypted)]> (
       <["auth_tag" := VStr (encryption.auth_tag encrypted)]> (
       <["server" := VStr (server data)]> (
       <["broker" := VStr (broker data)]> (
       <["account_type" := VStr (account_type data)]> (
       <["balance" := VFloat float_zero]> (
       <["equity" := VFloat float_zero]> (
       <["currency" := VStr "USD"]> (
       <["last_login" := VStr utcnow_isoformat]> ∅)))))))))) in
     result <- in_store (create_user user_data) ;;
     user_id <- lift (getitem result "$id") ;;
     ret (user_id, password data)
   end)%M.

(** [POST /api/users/connect]. *)
Definition connect_broker (data : BrokerConnect) : M world AccountInfoResponse :=
  try_except
    (require_client "MetaAPI not configured. Set METAAPI_TOKEN environment variable." ;;;
     credentials <- resolve_user data ;;
     let '(user_id, decrypted_password) := credentials in
     account_info <- with_client
       (metaapi_client.connect_account (login data) decrypted_password
          (server data) (platform data)) ;;
     balance <- lift (getitem account_info "balance") ;;
     equity <- lift (getitem account_info "equity") ;;
     in_store (update_user (py_str user_id)
       (<["balance" := balance]> (
        <["equity" := equity]> (
        <["last_login" := VStr utcnow_isoformat]> ∅)))) ;;;
     lift (format_2f balance) ;;;
     lift (format_2f equity) ;;;
     currency <- lift (getitem account_info "currency") ;;
     lift (new_AccountInfoResponse user_id (VStr (login data)) (VStr (server data))
             balance equity
             (dict_get account_info "margin" (VInt 0))
             (dict_get account_info "freeMargin" (VInt 0))
             currency))%M
    (fun e => raise (HTTPException 500 ("Connection failed: " ++ exn_str e))).

Record UserResponse := {
  id : string;
  user_broker_account : string;
  user_server : string;
  user_broker : string;
  user_account_type : string;
  user_balance : float;
  user_equity : float;
  user_currency : string;
  last_login : option datetime;
}.

(** [GET /api/users/{user_id}]: no [try] around the body. *)
Definition get_user (user_id : string) : M world UserResponse :=
  (user <- in_store (get_user_by_id user_id) ;;
   user <- found user "User not found" ;;
   lift (i <- getitem user "$id" ;;
         a <- getitem user "broker_account" ;;
         s <- getitem user "server" ;;
         b <- getitem user "broker" ;;
         t <- getitem user "account_type" ;;
         bal <- getitem user "balance" ;;
         eq <- getitem user "equity" ;;
         c <- getitem user "currency" ;;
         l <- (if truthy (dict_get user "last_login" VNone)
               then (raw <- getitem user "last_login" ;;
                     d <- fromisoformat raw ;; Ok (Some d))
               else Ok None) ;;
         i <- validate_str i ;;
         a <- validate_str a ;;
         s <- validate_str s ;;
         b <- validate_str b ;;
         t <- validate_str t ;;
         bal <- validate_float bal ;;
         eq <- validate_float eq ;;
         c <- validate_str c ;;
         Ok {| id := i; user_broker_account := a; user_server := s; user_broker := b;
               user_account_type := t; user_balance := bal; user_equity := eq;
               user_currency := c; last_login := l |})%result)%M.

(** [GET /api/users/{user_id}/account]: the live snapshot, and the stored
    values when the trading backend fails. *)
Definition get_account_info (user_id : string) : M world AccountInfoResponse :=
  try_except
    (user <- in_store (get_user_by_id user_id) ;;
     user <- found user "User not found" ;;
     require_client "MetaAPI not configured" ;;;
     try_except
       (account_login <- lift (getitem user "broker_account") ;;
        account_info <- with_client (metaapi_client.get_account_info account_login) ;;
        balance <- lift (getitem account_info "balance") ;;
        equity <- lift (getitem account_info "equity") ;;
        in_store (update_user user_id
          (<["balance" := balance]> (<["equity" := equity]> ∅))) ;;;
        lift (a <- getitem user "broker_account" ;;
              s <- getitem user "server" ;;
              c <- getitem account_info "currency" ;;
              new_AccountInfoResponse (VStr user_id) a s balance equity
                (dict_get account_info "margin" (VInt 0))
                (dict_get account_info "freeMargin" (VInt 0)) c)%result)
       (fun metaapi_error =>
        lift (a <- getitem user "broker_account" ;;
              s <- getitem user "server" ;;
              b <- getitem user "balance" ;;
              e <- getitem user "equity" ;;
              new_AccountInfoResponse (VStr user_id) a s b e (VInt 0) (VInt 0)
                (dict_get user "currency" (VStr "USD")))%result))%M
    (fun e => raise (HTTPException 500 (exn_str e))).

(** The fill price the handler reads off an execution result. *)
Definition fill_price (result : dict) (dflt : value) : value :=
  dict_get result "openPrice" (dict_get result "price" dflt).

(** The position document of an executed trade. *)
Definition position_data (trade : TradeRequest) (result : dict) : dict :=
  <["user_id" := VStr (trade_user_id trade)]> (
  <["symbol" := VStr (symbol trade)]> (
  <["type" := VStr (str_capitalize (type trade))]> (
  <["volume" := VFloat (volume trade)]> (
  <["open_price" := fill_price result (VInt 0)]> (
  <["current_price" := fill_price result (VInt 0)]> (
  <["stop_loss" := opt_float (stop_loss trade)]> (
  <["take_profit" := opt_float (take_profit trade)]> (
  <["profit" := VFloat float_zero]> (
  <["status" := VStr "open"]> (
  <["broker_position_id" :=
      VStr (py_str (dict_get result "positionId" (dict_get result "orderId" (VStr ""))))]> (
  <["opened_at" := VStr utcnow_isoformat]> ∅))))))))))).

(** [POST /api/trade]. *)
Definition place_trade (trade : TradeRequest) : M world dict :=
  try_except
    (require_client "MetaAPI not configured" ;;;
     user <- in_store (get_user_by_id (trade_user_id trade)) ;;
     user <- found user "User not found" ;;
     account_login <- lift (getitem user "broker_account") ;;
     result <- with_client
       (metaapi_client.place_trade account_login (symbol trade) (VFloat (volume trade))
          (type trade) (opt_float (stop_loss trade)) (opt_float (take_profit trade))) ;;
     position_result <- in_store (create_position (position_data trade result)) ;;
     position_id <- lift (getitem position_result "$id") ;;
     ret (<["success" := VBool true]> (
          <["position_id" := position_id]> (
          <["broker_order_id" := dict_get result "orderId" VNone]> (
          <["broker_position_id" := dict_get result "positionId" VNone]> (
          <["symbol" := VStr (symbol trade)]> (
          <["volume" := VFloat (volume trade)]> (
          <["price" := fill_price result VNone]> (
          <["message" := VStr (str_upper (type trade) ++ " order executed successfully")]>
          ∅)))))))))%M
    (fun e => raise (HTTPException 500 (exn_str e))).

(** The application around a handler: a returned value is a 200; an
    [HTTPException] goes to [http_exception_handler], which answers with its
    status code; any other exception goes to [general_exception_handler],
    which answers 500. *)
Definition http_exception_handler {A} (status_code : Z) (detail : string)
  : http_response A :=
  let text := exn_str (HTTPException status_code detail) in
  JSONResponse status_code
    {| error := detail;
       details := if String.eqb text detail then None else Some text |}.

Definition general_exception_handler {A} (exc : exn) : http_response A :=
  JSONResponse 500 {| error := "Internal server error"; details := Some (exn_str exc) |}.

Definition app {A} (handler : M world A) (w : world) : http_response A * world :=
  match handler w with
  | (Ok body, w') => (Success body, w')
  | (Raise (HTTPException status_code detail), w') =>
    (http_exception_handler status_code detail, w')
  | (Raise exc, w') => (general_exception_handler exc, w')
  end.

(** *** Positions and news *)

Context `{StoreOrder}.

Record PositionResponse := {
  pos_id : string;
  pos_user_id : string;
  pos_symbol : string;
  pos_type : string;
  pos_volume : float;
  pos_open_price : float;
  pos_current_price : float;
  pos_profit : float;
  pos_stop_loss : option float;
  pos_take_profit : option float;
  pos_status : string;
  pos_opened_at : datetime;
  pos_closed_at : option datetime;
}.

(** An [Optional[float]] and an [Optional[str]] field. *)
Definition validate_optional_float (v : value) : result (option float) :=
  match v with
  | VNone => Ok None
  | _ => (f <- validate_float v ;; Ok (Some f))%result
  end.
Definition validate_optional_str (v : value) : result (option string) :=
  match v with
  | VNone => Ok None
  | _ => (s <- validate_str v ;; Ok (Some s))%result
  end.

(** [datetime.fromisoformat(d[k]) if d.get(k) else None]. *)
Definition optional_datetime (d : dict) (k : string) : result (option datetime) :=
  if truthy (dict_get d k VNone)
  then (raw <- getitem d k ;; t <- fromisoformat raw ;; Ok (Some t))%result
  else Ok None.

(** [PositionResponse(id=pos["$id"], ...)] for one stored position. *)
Definition position_response (pos : dict) : result PositionResponse :=
  (i <- getitem pos "$id" ;;
   u <- getitem pos "user_id" ;;
   s <- getitem pos "symbol" ;;
   t <- getitem pos "type" ;;
   v <- getitem pos "volume" ;;
   o <- getitem pos "open_price" ;;
   c <- getitem pos "current_price" ;;
   p <- getitem pos "profit" ;;
   st <- getitem pos "status" ;;
   raw <- getitem pos "opened_at" ;;
   opened <- fromisoformat raw ;;
   closed <- optional_datetime pos "closed_at" ;;
   i <- validate_str i ;;
   u <- validate_str u ;;
   s <- validate_str s ;;
   t <- validate_str t ;;
   v <- validate_float v ;;
   o <- validate_float o ;;
   c <- validate_float c ;;
   p <- validate_float p ;;
   sl <- validate_optional_float (dict_get pos "stop_loss" VNone) ;;
   tp <- validate_optional_float (dict_get pos "take_profit" VNone) ;;
   st <- validate_str st ;;
   Ok {| pos_id := i; pos_user_id := u; pos_symbol := s; pos_type := t;
         pos_volume := v; pos_open_price := o; pos_current_price := c;
         pos_profit := p; pos_stop_loss := sl; pos_take_profit := tp;
         pos_status := st; pos_opened_at := opened; pos_closed_at := closed |})%result.

(** A list comprehension whose element expression may raise. *)
Fixpoint comprehension {A B} (f : A -> result B) (l : list A) : result (list B) :=
  match l with
  | [] => Ok []
  | a :: l' => (b <- f a ;; bs <- comprehension f l' ;; Ok (b :: bs))%result
  end.

(** [for pos in positions]: what the gateway returned, as the documents it
    iterates over.  The characters of a text are no documents. *)
Definition documents_of (v : value) : result (list dict) :=
  match v with
  | VList l => Ok l
  | VStr "" => Ok []
  | VStr _ => Raise (TypeError "string indices must be integers")
  | _ => Raise (TypeError "object is not iterable")
  end.

(** Lines 392 to 403 of [get_positions]: the user's open positions are
    fetched from the trading backend and looked at; whatever goes wrong is
    printed and dropped. *)
Definition sync_positions (user_id status : string) : M world unit :=
  fun w =>
    match the_metaapi_client w with
    | Some _ =>
      if String.eqb status "open" then
        try_except
          (user <- in_store (get_user_by_id user_id) ;;
           match falsy_to_none user with
           | Some user =>
             account_login <- lift (getitem user "broker_account") ;;
             metaapi_positions <- with_client (metaapi_client.get_positions account_login) ;;
             ret tt
           | None => ret tt
           end)%M
          (fun sync_error => ret tt) w
      else (Ok tt, w)
    | None => (Ok tt, w)
    end.

(** In [get_positions] the parameter [status] (a text) hides the module
    [fastapi.status]: what the [except] clause evaluates is
    [status.HTTP_500_INTERNAL_SERVER_ERROR] on a [str]. *)
Definition status_is_a_str : exn :=
  AttributeError "'str' object has no attribute 'HTTP_500_INTERNAL_SERVER_ERROR'".

(** [GET /api/users/{user_id}/positions]. *)
Definition get_positions (user_id status : string) : M world (list PositionResponse) :=
  try_except
    (positions <- in_store (appwrite_client.get_positions user_id (Some status)) ;;
     sync_positions user_id status ;;;
     positions <- lift (documents_of positions) ;;
     lift (comprehension position_response positions))%M
    (fun e => raise status_is_a_str).

Record ClosePositionRequest := {
  close_user_id : string;
  close_position_id : string;
}.

(** [a or b]. *)
Definition py_or (a b : value) : value := if truthy a then a else b.

(** [POST /api/positions/close]. *)
Definition close_position (request : ClosePositionRequest) : M world dict :=
  try_except
    (require_client "MetaAPI not configured" ;;;
     position <- in_store (get_position_by_id (close_position_id request)) ;;
     position <- found position "Position not found" ;;
     user <- in_store (get_user_by_id (close_user_id request)) ;;
     user <- found user "User not found" ;;
     lift (getitem position "$id") ;;;
     lift (getitem position "symbol") ;;;
     account_login <- lift (getitem user "broker_account") ;;
     broker_position_id <- lift (getitem position "broker_position_id") ;;
     result <- with_client
       (metaapi_client.close_position account_login broker_position_id) ;;
     current_price <- lift (getitem position "current_price") ;;
     let profit := py_or (dict_get result "profit" (VInt 0))
                         (dict_get result "pl" (VInt 0)) in
     let update_data : dict :=
       <["current_price" := dict_get result "closePrice" current_price]> (
       <["profit" := profit]> (
       <["status" := VStr "closed"]> (
       <["closed_at" := VStr utcnow_isoformat]> ∅))) in
     in_store (update_position (close_position_id request) update_data) ;;;
     lift (format_2f profit) ;;;
     ret (<["success" := VBool true]> (
          <["message" := VStr "Position closed successfully"]> (
          <["position_id" := VStr (close_position_id request)]> (
          <["profit" := profit]> ∅)))))%M
    (fun e => raise (HTTPException 500 (exn_str e))).

Record NewsResponse := {
  news_id : string;
  news_title : string;
  news_content : string;
  news_source : string;
  news_category : string;
  news_published_at : datetime;
  news_image_url : option string;
}.

(** [NewsResponse(id=news["$id"], ...)] for one stored article. *)
Definition news_response (article : dict) : result NewsResponse :=
  (i <- getitem article "$id" ;;
   t <- getitem article "title" ;;
   c <- getitem article "content" ;;
   s <- getitem article "source" ;;
   g <- getitem article "category" ;;
   raw <- getitem article "published_at" ;;
   published <- fromisoformat raw ;;
   i <- validate_str i ;;
   t <- validate_str t ;;
   c <- validate_str c ;;
   s <- validate_str s ;;
   g <- validate_str g ;;
   u <- validate_optional_str (dict_get article "image_url" VNone) ;;
   Ok {| news_id := i; news_title := t; news_content := c; news_source := s;
         news_category := g; news_published_at := published;
         news_image_url := u |})%result.

(** The two articles [get_news] writes when it found none. *)
Definition sample_news : list dict :=
  [ <["title" := VStr "KanAIRY Platform Now Live"]> (
    <["content" := VStr "The KanAIRY trading platform is now officially live! Start your automated trading journey today."]> (
    <["source" := VStr "KanAIRY"]> (
    <["category" := VStr "platform"]> (
    <["published_at" := VStr utcnow_isoformat]> (
    <["image_url" := VStr "https://images.unsplash.com/photo-1611974789855-9c2a0a7236a3?w=800"]> ∅)))));
    <["title" := VStr "Forex Market Analysis Q1 2024"]> (
    <["content" := VStr "EUR/USD shows strong bullish momentum, breaking key resistance levels. Technical indicators suggest continued upward movement."]> (
    <["source" := VStr "Market Watch"]> (
    <["category" := VStr "forex"]> (
    <["published_at" := VStr utcnow_isoformat]> (
    <["image_url" := VStr "https://images.unsplash.com/photo-1611974789855-9c2a0a7236a3?w-800"]> ∅))))) ].

(** [for news in sample_news: appwrite_client.create_news(news)]. *)
Fixpoint create_all (articles : list dict) : M store unit :=
  match articles with
  | [] => ret tt
  | a :: rest => (create_news a ;;; create_all rest)%M
  end.

(** [GET /api/news]. *)
Definition get_news (category : option string) (limit : Z) : M world (list NewsResponse) :=
  try_except
    (news_articles <- in_store (appwrite_client.get_news category limit) ;;
     news_articles <-
       (if truthy news_articles then ret news_articles
        else (in_store (create_all sample_news) ;;;
              in_store (appwrite_client.get_news category limit))) ;;
     articles <- lift (documents_of news_articles) ;;
     lift (comprehension news_response articles))%M
    (fun e => raise (HTTPException 500 (exn_str e))).

End handlers.

End main.

(** ** A deployment to run the model on *)

Module demo.
Import encryption metaapi_client appwrite_client main.

(** The AEAD interface: a keystream read off the key, a tag that counts. *)
#[export] Instance demo_gcm : AesGcm := {|
  ENCRYPTION_KEY := list_ascii_of_string "0123456789abcdef0123456789abcdef";
  ctr_keystream := fun key _ i => nth (i mod 32) key "000"%char;
  ghash := fun _ nonce ct => N.of_nat (length nonce + 3 * length ct);
|}.

Definition demo_rnd (i : nat) : ascii := ascii_of_nat (17 * i + 5).

(** The [str] made of the lone surrogate U+D800. *)
Definition lone_surrogate : string :=
  String (ascii_of_nat 237) (String (ascii_of_nat 160) (String (ascii_of_nat 128) "")).

#[export] Instance demo_host : Host := {|
  utcnow_isoformat := "2024-03-01T09:30:00";
  os_urandom := demo_rnd;
  float_repr := fun _ => "1.0";
  list_repr := fun _ => "[]";
  datetime := string;
  fromisoformat := fun v => match v with
                            | VStr s => Ok s
                            | _ => Raise (TypeError "fromisoformat: argument must be str")
                            end;
  str_upper := upper;
  str_capitalize := capitalize;
|}.

#[export, refine] Instance demo_pydantic : Pydantic := {|
  validate_str := fun v => match v with
                           | VStr s => Ok s
                           | _ => Raise (ValidationError "str type expected")
                           end;
  validate_float := fun v => match v with
                             | VFloat f => Ok f
                             | VInt z =>
                               if isfinite (float_of_int z) then Ok (float_of_int z)
                               else Raise (ValidationError "value is not a valid float")
                             | _ => Raise (ValidationError "value is not a valid float")
                             end;
|}.
Proof.
  - reflexivity.
  - reflexivity.
  - by intros z ->.
Defined.

(** A trading backend that knows one account, deploys only that one, fills
    buy orders and refuses sell orders. *)
Definition known_account : account :=
  {| acc_id := "acc-1"; acc_login := "100200"; acc_server := "Demo-1" |}.

Definition demo_snapshot : dict := Eval vm_compute in
  <["balance" := VFloat (float_of_int 1000)]> (
  <["equity" := VFloat (float_of_int 990)]> (
  <["currency" := VStr "USD"]> ∅)).

Definition demo_fill : dict := Eval vm_compute in
  <["orderId" := VStr "46870472"]> (
  <["positionId" := VStr "46870472"]> (
  <["openPrice" := VFloat (float_of_int 2)]> ∅)).

#[export] Instance demo_api : MetaApi := {|
  api_get_accounts := Ok [known_account];
  api_create_account := fun args =>
    Ok {| acc_id := "acc-2"; acc_login := "555000"; acc_server := "Demo-1" |};
  account_deploy := fun a =>
    if String.eqb (acc_id a) "acc-1" then Ok tt
    else Raise (SdkError "TimeoutException" "deployment timed out");
  account_wait_deployed := fun _ => Ok tt;
  account_wait_connected := fun _ => Ok tt;
  account_get_rpc_connection := fun a => Ok {| conn_account := a |};
  connection_connect := fun _ => Ok tt;
  connection_wait_synchronized := fun _ => Ok tt;
  connection_get_account_information := fun _ => Ok demo_snapshot;
  connection_create_market_buy_order := fun _ _ _ _ _ => Ok demo_fill;
  connection_create_market_sell_order := fun _ _ _ _ _ =>
    Raise (SdkError "TradeException" "Market is closed");
  connection_get_positions := fun _ => Ok [];
  connection_close_position := fun _ _ =>
    Raise (SdkError "TradeException" "Position not found");
|}.

(** The client after [connect_account("100200", ...)] on a fresh one. *)
Definition connected : result dict * MetaAPIClient := Eval vm_compute in
  connect_account "100200" "s3cret" "Demo-1" "mt5" new_client.

(** The stored credentials of that account: its password, encrypted. *)
Definition stored_credentials : encrypted_password := Eval vm_compute in
  match encrypt_password demo_rnd "s3cret" with
  | Ok e => e
  | Raise _ => {| encrypted := ""; iv := ""; auth_tag := "" |}
  end.

Definition demo_user : dict := Eval vm_compute in
  <["$id" := VStr "u1"]> (
  <["broker_account" := VStr "100200"]> (
  <["encrypted_password" := VStr (encrypted stored_credentials)]> (
  <["iv" := VStr (iv stored_credentials)]> (
  <["auth_tag" := VStr (auth_tag stored_credentials)]> (
  <["server" := VStr "Demo-1"]> (
  <["broker" := VStr "mt5"]> (
  <["account_type" := VStr "demo"]> (
  <["balance" := VFloat (float_of_int 1000)]> (
  <["equity" := VFloat (float_of_int 990)]> (
  <["currency" := VStr "USD"]> (
  <["last_login" := VStr "2024-02-29T18:00:00"]> ∅))))))))))).

Definition demo_store : store :=
  {| users := [demo_user]; positions := []; orders := []; news := [];
     next_id := 2; faults := [] |}.

(** The same store behind a transport that fails the next request. *)
Definition unreachable_store : store :=
  {| users := [demo_user]; positions := []; orders := []; news := [];
     next_id := 2; faults := [Some "Connection refused"] |}.

(** The service after the account connected; and a service that was
    restarted since, with an empty session cache. *)
Definition connected_world : world :=
  {| the_metaapi_client := Some connected.2; the_store := demo_store |}.
Definition restarted_world : world :=
  {| the_metaapi_client := Some new_client; the_store := demo_store |}.
Definition cut_off_world : world :=
  {| the_metaapi_client := Some connected.2; the_store := unreachable_store |}.

Definition demo_connect : BrokerConnect :=
  {| login := "100200"; password := "typed-by-the-user"; server := "Demo-1";
     broker := "mt5"; account_type := "demo"; platform := "mt5" |}.

Definition demo_trade : TradeRequest :=
  {| trade_user_id := "u1"; symbol := "EURUSD"; volume := float_of_int 1;
     type := "buy"; stop_loss := None; take_profit := None |}.


(** A transport that lets one request through and fails the next. *)
Definition flaky_store : store :=
  {| users := [demo_user]; positions := []; orders := []; news := [];
     next_id := 2; faults := [None; Some "Read timed out"] |}.
Definition flaky_world : world :=
  {| the_metaapi_client := Some connected.2; the_store := flaky_store |}.

(** The same backend, whose account snapshot comes without a balance. *)
Definition demo_api_no_balance : MetaApi := {|
  api_get_accounts := Ok [known_account];
  api_create_account := fun args =>
    Ok {| acc_id := "acc-2"; acc_login := "555000"; acc_server := "Demo-1" |};
  account_deploy := fun _ => Ok tt;
  account_wait_deployed := fun _ => Ok tt;
  account_wait_connected := fun _ => Ok tt;
  account_get_rpc_connection := fun a => Ok {| conn_account := a |};
  connection_connect := fun _ => Ok tt;
  connection_wait_synchronized := fun _ => Ok tt;
  connection_get_account_information := fun _ => Ok {["equity" := VInt 5]};
  connection_create_market_buy_order := fun _ _ _ _ _ => Ok demo_fill;
  connection_create_market_sell_order := fun _ _ _ _ _ => Ok demo_fill;
  connection_get_positions := fun _ => Ok [];
  connection_close_position := fun _ _ => Ok ∅;
|}.

(** A store that lists in insertion order, the newest first when asked for
    "DESC". *)
#[export, refine] Instance demo_order : StoreOrder := {|
  order_by := fun _ type l => if String.eqb type "DESC" then rev l else l;
|}.
Proof.
  intros _ type l. destruct (String.eqb type "DESC"); [|done].
  symmetry. apply Permutation_rev.
Defined.

(** A position of another user, open at the broker; the store that holds
    it, and the service in front of that store. *)
Definition demo_position : dict := Eval vm_compute in
  <["$id" := VStr "p1"]> (
  <["user_id" := VStr "u2"]> (
  <["symbol" := VStr "EURUSD"]> (
  <["type" := VStr "Buy"]> (
  <["volume" := VFloat (float_of_int 1)]> (
  <["open_price" := VFloat (float_of_int 2)]> (
  <["current_price" := VFloat (float_of_int 2)]> (
  <["profit" := VFloat float_zero]> (
  <["status" := VStr "open"]> (
  <["broker_position_id" := VStr "46870472"]> (
  <["opened_at" := VStr "2024-03-01T09:30:00"]> ∅)))))))))).

Definition trading_store : store :=
  {| users := [demo_user]; positions := [demo_position]; orders := []; news := [];
     next_id := 3; faults := [] |}.
Definition trading_world : world :=
  {| the_metaapi_client := Some connected.2; the_store := trading_store |}.

(** The same behind a transport that fails the third request. *)
Definition lagging_store : store :=
  {| users := [demo_user]; positions := [demo_position]; orders := []; news := [];
     next_id := 3; faults := [None; None; Some "Read timed out"] |}.
Definition lagging_world : world :=
  {| the_metaapi_client := Some connected.2; the_store := lagging_store |}.

Definition demo_close : ClosePositionRequest :=
  {| close_user_id := "u1"; close_position_id := "p1" |}.


(** A transport that fails one request and lets the following through. *)
Definition recovering_store : store :=
  {| users := [demo_user]; positions := []; orders := []; news := [];
     next_id := 2; faults := [Some "Read timed out"] |}.
Definition recovering_world : world :=
  {| the_metaapi_client := Some connected.2; the_store := recovering_store |}.

End demo.

(** * Verification *)

(** ** The credential cipher *)

Module encryption_facts.
Import encryption.

(** *** Bytes *)

Lemma xor_byte_cancel (p k : ascii) : xor_byte (xor_byte p k) k = p.
Proof.
  destruct p, k; cbn.
  by rewrite !xorb_assoc, !xorb_nilpotent, !xorb_false_r.
Qed.

Lemma byte_lt_256 (a : ascii) : (N_of_ascii a < 256)%N.
Proof. apply N_ascii_bounded. Qed.

Lemma length_be_bytes (n : nat) (x : N) : length (be_bytes n x) = n.
Proof.
  revert x; induction n as [|n IH]; intros x; cbn; [done|].
  rewrite length_app, IH; cbn; lia.
Qed.

Lemma length_urandom (rnd : nat -> ascii) (n : nat) : length (urandom rnd n) = n.
Proof. unfold urandom. by rewrite length_map, length_seq. Qed.

(** Induction on a byte string three bytes at a time, as base64 reads it. *)
Lemma bytes_ind3 (P : bytes -> Prop) :
  P [] -> (forall a, P [a]) -> (forall a b, P [a; b]) ->
  (forall a b c rest, P rest -> P (a :: b :: c :: rest)) ->
  forall bs, P bs.
Proof.
  intros H0 H1 H2 H3 bs.
  cut (P bs /\ (forall a, P (a :: bs)) /\ (forall a b, P (a :: b :: bs))).
  { by intros [? _]. }
  induction bs as [|c bs (IH0 & IH1 & IH2)]; auto.
Qed.

(** *** UTF-8 and ASCII *)

Lemma ascii_is_utf8 (bs : bytes) :
  forallb (in_range 0 127) bs = true -> utf8_valid bs = true.
Proof.
  induction bs as [|b bs IH]; cbn [forallb utf8_valid]; [done|].
  intros [Hb Hbs]%andb_prop. rewrite Hb. auto.
Qed.

Lemma decode_ascii (bs : bytes) :
  forallb (in_range 0 127) bs = true ->
  bytes_decode bs = Ok (string_of_list_ascii bs).
Proof. intros Hbs. unfold bytes_decode. by rewrite ascii_is_utf8. Qed.

(** *** The base64 alphabet *)

(** A property of every sextet, checked on the 64 of them. *)
Lemma sextet_cases (P : N -> Prop) :
  Forall P (map N.of_nat (seq 0 64)) -> forall v, (v < 64)%N -> P v.
Proof.
  intros HP v Hv. rewrite Forall_forall in HP. apply HP.
  apply list_elem_of_In, in_map_iff. exists (N.to_nat v). split; [lia|].
  apply in_seq. lia.
Qed.

Lemma b64_value_char (v : N) : (v < 64)%N -> b64_value (b64_char v) = Some v.
Proof.
  revert v. apply sextet_cases.
  repeat (constructor; [vm_compute; reflexivity|]). constructor.
Qed.

Lemma b64_char_not_pad (v : N) : (v < 64)%N -> Ascii.eqb (b64_char v) "="%char = false.
Proof.
  revert v. apply sextet_cases.
  repeat (constructor; [vm_compute; reflexivity|]). constructor.
Qed.

Lemma b64_char_ascii (v : N) : in_range 0 127 (b64_char v) = true.
Proof.
  destruct (N.lt_ge_cases v 64) as [Hv|Hv].
  - revert v Hv. apply sextet_cases.
    repeat (constructor; [vm_compute; reflexivity|]). constructor.
  - unfold b64_char.
    destruct (N.ltb_spec v 26); [lia|]. destruct (N.ltb_spec v 52); [lia|].
    destruct (N.ltb_spec v 62); [lia|]. destruct (N.eqb_spec v 62); [lia|].
    reflexivity.
Qed.

Lemma b64encode_ascii (bs : bytes) : forallb (in_range 0 127) (b64encode bs) = true.
Proof.
  induction bs as [|a|a b|a b c rest IH] using bytes_ind3;
    cbn [b64encode forallb]; rewrite ?b64_char_ascii; cbn [andb]; done.
Qed.

(** One data character met by the decoder. *)
Lemma a2b_step (v : N) (s : bytes) (q : nat) (l : N) (p : nat) :
  (v < 64)%N ->
  a2b_base64 (b64_char v :: s) q l p =
  match q with
  | O => a2b_base64 s 1 v 0
  | 1%nat =>
    (out <- a2b_base64 s 2 (v mod 16)%N 0 ;;
     Ok (ascii_of_N (l * 4 + v / 16) :: out))%result
  | 2%nat =>
    (out <- a2b_base64 s 3 (v mod 4)%N 0 ;;
     Ok (ascii_of_N (l * 16 + v / 4) :: out))%result
  | _ =>
    (out <- a2b_base64 s 0 0%N 0 ;;
     Ok (ascii_of_N (l * 64 + v) :: out))%result
  end.
Proof.
  intros Hv. cbn [a2b_base64].
  by rewrite b64_char_not_pad, b64_value_char.
Qed.

(** Arithmetic of the regrouping: bytes to sextets and back. *)
Lemma regroup (x y z : N) :
  (x < 256 -> y < 256 -> z < 256 ->
   x / 4 < 64 /\ x mod 4 * 16 + y / 16 < 64 /\
   y mod 16 * 4 + z / 64 < 64 /\ z mod 64 < 64 /\
   x / 4 * 4 + (x mod 4 * 16 + y / 16) / 16 = x /\
   (x mod 4 * 16 + y / 16) mod 16 * 16 + (y mod 16 * 4 + z / 64) / 4 = y /\
   (y mod 16 * 4 + z / 64) mod 4 * 64 + z mod 64 = z)%N.
Proof.
  intros Hx Hy Hz.
  assert (Hx4 := N.mod_upper_bound x 4 ltac:(lia)).
  assert (Hy16 := N.mod_upper_bound y 16 ltac:(lia)).
  assert (Hz64 := N.mod_upper_bound z 64 ltac:(lia)).
  assert (Hy' : (y / 16 < 16)%N) by (apply N.Div0.div_lt_upper_bound; lia).
  assert (Hz' : (z / 64 < 4)%N) by (apply N.Div0.div_lt_upper_bound; lia).
  assert (Hx' : (x / 4 < 64)%N) by (apply N.Div0.div_lt_upper_bound; lia).
  assert (E1 : ((x mod 4 * 16 + y / 16) / 16 = x mod 4)%N).
  { rewrite N.add_comm, N.div_add by lia. rewrite N.div_small; lia. }
  assert (E2 : ((x mod 4 * 16 + y / 16) mod 16 = y / 16)%N).
  { rewrite N.add_comm, N.Div0.mod_add. apply N.mod_small; lia. }
  assert (E3 : ((y mod 16 * 4 + z / 64) / 4 = y mod 16)%N).
  { rewrite N.add_comm, N.div_add by lia. rewrite N.div_small; lia. }
  assert (E4 : ((y mod 16 * 4 + z / 64) mod 4 = z / 64)%N).
  { rewrite N.add_comm, N.Div0.mod_add. apply N.mod_small; lia. }
  rewrite E1, E2, E3, E4.
  pose proof (N.div_mod x 4 ltac:(lia)). pose proof (N.div_mod y 16 ltac:(lia)).
  pose proof (N.div_mod z 64 ltac:(lia)).
  repeat split; lia.
Qed.

(** [b64decode] undoes [b64encode]. *)
Lemma a2b_b64encode (bs : bytes) : a2b_base64 (b64encode bs) 0 0%N 0 = Ok bs.
Proof.
  induction bs as [|a|a b|a b c rest IH] using bytes_ind3;
    cbn [b64encode]; [done|..].
  - pose proof (byte_lt_256 a) as Ha.
    destruct (regroup (N_of_ascii a) 0 0 Ha) as (H1 & H2 & _ & _ & E1 & _); [lia..|].
    rewrite N.Div0.div_0_l, N.add_0_r in H2, E1.
    rewrite !a2b_step by done. cbn [a2b_base64 Ascii.eqb Nat.leb Nat.add rbind].
    change (Ascii.eqb "=" "=") with true. cbn.
    by rewrite E1, ascii_N_embedding.
  - pose proof (byte_lt_256 a) as Ha. pose proof (byte_lt_256 b) as Hb.
    destruct (regroup (N_of_ascii a) (N_of_ascii b) 0 Ha Hb)
      as (H1 & H2 & H3 & _ & E1 & E2 & _); [lia|].
    rewrite N.Div0.div_0_l, N.add_0_r in H3, E2.
    rewrite !a2b_step by done.
    change (a2b_base64 ["="%char] 3 _ 0) with (@Ok bytes []). cbn [rbind].
    by rewrite E1, E2, !ascii_N_embedding.
  - pose proof (byte_lt_256 a) as Ha. pose proof (byte_lt_256 b) as Hb.
    pose proof (byte_lt_256 c) as Hc.
    destruct (regroup _ _ _ Ha Hb Hc) as (H1 & H2 & H3 & H4 & E1 & E2 & E3).
    rewrite !a2b_step by done. rewrite IH. cbn [rbind].
    by rewrite E1, E2, E3, !ascii_N_embedding.
Qed.

Lemma b64decode_b64encode (bs : bytes) :
  b64decode (string_of_list_ascii (b64encode bs)) = Ok bs.
Proof.
  unfold b64decode. rewrite list_ascii_of_string_of_list_ascii.
  by rewrite b64encode_ascii, a2b_b64encode.
Qed.

(** The stored field of a byte string, and reading it back. *)
Lemma field_roundtrip (bs : bytes) :
  exists s, bytes_decode (b64encode bs) = Ok s /\ b64decode s = Ok bs.
Proof.
  exists (string_of_list_ascii (b64encode bs)). split.
  - apply decode_ascii, b64encode_ascii.
  - apply b64decode_b64encode.
Qed.

(** *** AES-GCM *)

Section gcm_facts.
Context `{AesGcm}.

(** Counter mode is its own inverse: the same keystream is applied twice. *)
Lemma ctr_xor_involutive (key iv : bytes) (i : nat) (data : bytes) :
  ctr_xor key iv i (ctr_xor key iv i data) = data.
Proof.
  revert i; induction data as [|b data IH]; intros i; cbn; [done|].
  by rewrite xor_byte_cancel, IH.
Qed.

Lemma gcm_mode_urandom (rnd : nat -> ascii) (ct : bytes) (key nonce : bytes) :
  gcm_mode (urandom rnd 16) None = Ok tt /\
  gcm_mode (urandom rnd 16) (Some (gcm_tag key nonce ct)) = Ok tt.
Proof.
  unfold gcm_mode, gcm_tag. by rewrite length_urandom, length_be_bytes.
Qed.

(** Decrypting what was encrypted, under the same key, IV and tag. *)
Lemma gcm_decrypt_encrypt (key nonce pt : bytes) :
  gcm_decrypt key nonce (gcm_encrypt key nonce pt).2 (gcm_encrypt key nonce pt).1 = Ok pt.
Proof.
  unfold gcm_encrypt, gcm_decrypt. cbn [fst snd].
  by rewrite bool_decide_eq_true_2, ctr_xor_involutive.
Qed.

(** A tag that is not the ciphertext's is refused. *)
Lemma gcm_decrypt_bad_tag (key nonce tag ct : bytes) :
  tag <> gcm_tag key nonce ct ->
  gcm_decrypt key nonce tag ct = Raise InvalidTag.
Proof.
  intros Htag. unfold gcm_decrypt. by rewrite bool_decide_eq_false_2.
Qed.

(** [encrypt_password] raises on text that does not encode. *)
Lemma encrypt_password_unencodable (rnd : nat -> ascii) (P : string) :
  encodable P = false ->
  encrypt_password rnd P = Raise UnicodeEncodeError.
Proof.
  intros HP. unfold encrypt_password, str_encode.
  destruct (gcm_mode_urandom rnd [] [] []) as [-> _]. by rewrite HP.
Qed.

End gcm_facts.

Import demo.

(** C1, as stated, fails: a [str] holding a lone surrogate is a password
    string, [password.encode()] raises [UnicodeEncodeError] on it, and
    [encrypt_password] re-raises, so there are no outputs to decrypt. *)
Lemma encrypt_password_lone_surrogate :
  encrypt_password demo_rnd lone_surrogate = Raise UnicodeEncodeError.
Proof. vm_compute. reflexivity. Qed.

(** C1 (amended): for every password string P that encodes to UTF-8 (no lone
    surrogate), and whatever randomness the call draws, [encrypt_password]
    returns three base64 fields and [decrypt_password] applied to them
    returns exactly P. *)
Theorem decrypt_encrypt_password `{AesGcm} (rnd : nat -> ascii) (P : string) :
  encodable P = true ->
  exists e,
    encrypt_password rnd P = Ok e /\
    decrypt_password (encrypted e) (iv e) (auth_tag e) = Ok P.
Proof.
  intros HP. unfold encrypt_password, str_encode.
  destruct (gcm_mode_urandom rnd [] [] []) as [-> _].
  rewrite HP. cbn [rbind].
  pose proof (gcm_decrypt_encrypt ENCRYPTION_KEY (urandom rnd 16)
                (list_ascii_of_string P)) as Hdec.
  destruct (gcm_encrypt _ _ _) as [ct tag] eqn:Henc. cbn [fst snd] in Hdec.
  assert (Htag : tag = gcm_tag ENCRYPTION_KEY (urandom rnd 16) ct).
  { unfold gcm_encrypt in Henc. by injection Henc as <- <-. }
  destruct (field_roundtrip ct) as (c64 & -> & Hc).
  destruct (field_roundtrip (urandom rnd 16)) as (i64 & -> & Hi).
  destruct (field_roundtrip tag) as (t64 & -> & Ht). cbn [rbind].
  eexists; split; [reflexivity|]. cbn [encrypted iv auth_tag].
  unfold decrypt_password. rewrite Hc, Hi, Ht. cbn [rbind].
  rewrite Htag at 1.
  destruct (gcm_mode_urandom rnd ct ENCRYPTION_KEY (urandom rnd 16)) as [_ ->].
  cbn [rbind]. rewrite Hdec. cbn [rbind].
  unfold bytes_decode. unfold encodable in HP.
  by rewrite HP, string_of_list_ascii_of_string.
Qed.

Lemma decrypt_encrypt_password_witness :
  encodable "hunter2" = true /\
  exists e,
    encrypt_password demo_rnd "hunter2" = Ok e /\
    decrypt_password (encrypted e) (iv e) (auth_tag e) = Ok "hunter2".
Proof.
  split; [reflexivity|].
  apply (decrypt_encrypt_password demo_rnd "hunter2"). reflexivity.
Defined.

End encryption_facts.

(** ** The broker session manager and the trade facade *)

Module metaapi_client_facts.
Import metaapi_client.

(** Running the monad: unfold its operations and the bookkeeping. *)
Ltac run :=
  unfold try_except, bind, ret, raise, lift, modify, sdk, cache,
    cached_connection in *; cbn [fst snd] in *.

(** Case analysis on what the next scrutinised call answered. *)
Ltac innermost x :=
  lazymatch x with
  | context [match _ with _ => _ end] => fail
  | _ => idtac
  end.

Ltac next_answer :=
  match goal with
  | H : context [match ?x with _ => _ end] |- _ =>
    innermost x; destruct x eqn:?; cbn in H
  | |- context [match ?x with _ => _ end] =>
    innermost x; destruct x eqn:?; cbn
  end.

(** The steps of the connect sequence, as opposed to the trade and query
    calls. *)
Definition is_connect_step (c : sdk_call) : bool :=
  match c with
  | get_accounts_call | create_account_call _ | deploy_call _ | wait_deployed_call _
  | wait_connected_call _ | get_rpc_connection_call _ | connect_call _
  | wait_synchronized_call _ => true
  | _ => false
  end.

Section facts.
Context `{MetaApi}.

(** The order [place_trade] sends on a connection, and its answer. *)
Definition order_call (c : connection) (symbol : string) (volume : value)
    (action_type : string) (stop_loss take_profit : value) : sdk_call :=
  if String.eqb (lower action_type) "buy"
  then create_market_buy_order_call c symbol volume stop_loss take_profit
  else create_market_sell_order_call c symbol volume stop_loss take_profit.

Definition order_answer (c : connection) (symbol : string) (volume : value)
    (action_type : string) (stop_loss take_profit : value) : result dict :=
  if String.eqb (lower action_type) "buy"
  then connection_create_market_buy_order c symbol volume stop_loss take_profit
  else connection_create_market_sell_order c symbol volume stop_loss take_profit.

(** The state after one more SDK call. *)
Definition called (self : MetaAPIClient) (cs : list sdk_call) : MetaAPIClient :=
  {| accounts := accounts self; sdk_calls := sdk_calls self ++ cs |}.

(** *** With a cached session: one call on the cached connection *)

Lemma place_trade_cached self L entry symbol volume action sl tp :
  accounts self !! L = Some entry ->
  place_trade (VStr L) symbol volume action sl tp self =
    (order_answer (s_connection entry) symbol volume action sl tp,
     called self [order_call (s_connection entry) symbol volume action sl tp]).
Proof.
  intros Hin. unfold place_trade, order_answer, order_call. run. rewrite Hin.
  destruct (String.eqb (lower action) "buy");
    match goal with |- context [match ?x with _ => _ end] => by destruct x end.
Qed.

Lemma close_position_cached self L entry position_id :
  accounts self !! L = Some entry ->
  close_position (VStr L) position_id self =
    (connection_close_position (s_connection entry) position_id,
     called self [close_position_call (s_connection entry) position_id]).
Proof.
  intros Hin. unfold close_position. run. rewrite Hin.
  match goal with |- context [match ?x with _ => _ end] => by destruct x end.
Qed.

Lemma get_positions_cached self L entry :
  accounts self !! L = Some entry ->
  get_positions (VStr L) self =
    (connection_get_positions (s_connection entry),
     called self [get_positions_call (s_connection entry)]).
Proof.
  intros Hin. unfold get_positions. run. rewrite Hin.
  match goal with |- context [match ?x with _ => _ end] => by destruct x end.
Qed.

Lemma get_account_info_upstream_failure self L entry e :
  accounts self !! L = Some entry ->
  connection_get_account_information (s_connection entry) = Raise e ->
  get_account_info (VStr L) self =
    (Raise e, called self [get_account_information_call (s_connection entry)]).
Proof.
  intros Hin He. unfold get_account_info. run. by rewrite Hin, He.
Qed.

(** *** Without a cached session: the guard raises, nothing is called *)

Lemma place_trade_not_connected self L symbol volume action sl tp :
  accounts self !! L = None ->
  place_trade (VStr L) symbol volume action sl tp self = (Raise not_connected, self).
Proof. intros Hout. unfold place_trade. run. by rewrite Hout. Qed.

Lemma close_position_not_connected self L position_id :
  accounts self !! L = None ->
  close_position (VStr L) position_id self = (Raise not_connected, self).
Proof. intros Hout. unfold close_position. run. by rewrite Hout. Qed.

Lemma get_positions_not_connected self L :
  accounts self !! L = None ->
  get_positions (VStr L) self = (Raise not_connected, self).
Proof. intros Hout. unfold get_positions. run. by rewrite Hout. Qed.

Lemma get_account_info_not_connected self L :
  accounts self !! L = None ->
  get_account_info (VStr L) self =
    (Raise (PyException "Account not connected. Please connect first."), self).
Proof. intros Hout. unfold get_account_info. run. by rewrite Hout. Qed.

(** *** The connect sequence *)

Section sequence.
Variables login password server platform : string.

(** The account the sequence works on: the located one, or a created one. *)
Definition located_or_created : result account :=
  (accs <- api_get_accounts ;;
   match find_account login server accs with
   | Some acc => Ok acc
   | None => api_create_account (new_account_args login password server platform)
   end)%result.

(** The first step of the sequence that fails, and its exception. *)
Inductive step_failure : exn -> Prop :=
| registry_lookup_fails e :
    api_get_accounts = Raise e -> step_failure e
| account_creation_fails accs e :
    api_get_accounts = Ok accs ->
    find_account login server accs = None ->
    api_create_account (new_account_args login password server platform) = Raise e ->
    step_failure e
| deploy_fails acc e :
    located_or_created = Ok acc ->
    account_deploy acc = Raise e -> step_failure e
| wait_deployed_fails acc e :
    located_or_created = Ok acc ->
    account_deploy acc = Ok tt ->
    account_wait_deployed acc = Raise e -> step_failure e
| wait_connected_fails acc e :
    located_or_created = Ok acc ->
    account_deploy acc = Ok tt ->
    account_wait_deployed acc = Ok tt ->
    account_wait_connected acc = Raise e -> step_failure e
| get_rpc_connection_fails acc e :
    located_or_created = Ok acc ->
    account_deploy acc = Ok tt ->
    account_wait_deployed acc = Ok tt ->
    account_wait_connected acc = Ok tt ->
    account_get_rpc_connection acc = Raise e -> step_failure e
| rpc_connect_fails acc c e :
    located_or_created = Ok acc ->
    account_deploy acc = Ok tt ->
    account_wait_deployed acc = Ok tt ->
    account_wait_connected acc = Ok tt ->
    account_get_rpc_connection acc = Ok c ->
    connection_connect c = Raise e -> step_failure e
| wait_synchronized_fails acc c e :
    located_or_created = Ok acc ->
    account_deploy acc = Ok tt ->
    account_wait_deployed acc = Ok tt ->
    account_wait_connected acc = Ok tt ->
    account_get_rpc_connection acc = Ok c ->
    connection_connect c = Ok tt ->
    connection_wait_synchronized c = Raise e -> step_failure e
| account_information_fails acc c e :
    located_or_created = Ok acc ->
    account_deploy acc = Ok tt ->
    account_wait_deployed acc = Ok tt ->
    account_wait_connected acc = Ok tt ->
    account_get_rpc_connection acc = Ok c ->
    connection_connect c = Ok tt ->
    connection_wait_synchronized c = Ok tt ->
    connection_get_account_information c = Raise e -> step_failure e.

(** All the steps went through, up to the account snapshot. *)
Definition steps_succeed (acc : account) (c : connection) (info : dict) : Prop :=
  located_or_created = Ok acc /\
  account_deploy acc = Ok tt /\
  account_wait_deployed acc = Ok tt /\
  account_wait_connected acc = Ok tt /\
  account_get_rpc_connection acc = Ok c /\
  connection_connect c = Ok tt /\
  connection_wait_synchronized c = Ok tt /\
  connection_get_account_information c = Ok info.

Ltac locate :=
  unfold located_or_created in *;
  repeat match goal with
  | Hl : rbind ?x _ = Ok _ |- _ => destruct x eqn:?; cbn [rbind] in Hl; [|discriminate Hl]
  | Hl : match ?x with _ => _ end = Ok _ |- _ => destruct x eqn:?
  | Hl : Ok _ = Ok _ |- _ => injection Hl as <-
  end.

Ltac steps :=
  unfold connect_account, connect_sequence; run;
  repeat match goal with
  | Hr : ?x = _ |- context [match ?x with _ => _ end] => rewrite Hr; cbn
  end.

(** A failing step aborts the sequence before the cache is written. *)
Lemma step_failure_aborts (e : exn) (self : MetaAPIClient) :
  step_failure e ->
  exists self',
    connect_account login password server platform self =
      (Raise (PyException ("MetaAPI connection failed: " ++ exn_str e)), self') /\
    accounts self' = accounts self.
Proof.
  intros Hfail. destruct Hfail; locate; steps; by eexists.
Qed.

(** When every step succeeds the session is cached under the login, also
    when the snapshot then lacks a balance. *)
Lemma steps_succeed_caches acc c info (self : MetaAPIClient) :
  steps_succeed acc c info ->
  exists r self',
    connect_account login password server platform self = (r, self') /\
    accounts self' =
      <[login := {| s_account := acc; s_connection := c |}]> (accounts self).
Proof.
  intros (Hl & ? & ? & ? & ? & ? & ? & ?). locate; steps.
  all: repeat next_answer.
  all: eexists _, _; split; reflexivity.
Qed.

(** Outside the steps: a snapshot without a balance makes the sequence
    raise after the cache was written, and the session stays cached. *)
Lemma late_failure_stays_cached acc c info (self : MetaAPIClient) :
  steps_succeed acc c info ->
  info !! "balance" = None ->
  exists self',
    connect_account login password server platform self =
      (Raise (PyException ("MetaAPI connection failed: " ++ exn_str (KeyError "balance"))),
       self') /\
    accounts self' !! login = Some {| s_account := acc; s_connection := c |}.
Proof.
  intros (Hl & ? & ? & ? & ? & ? & ? & ?) Hbalance. locate; steps.
  all: unfold getitem; rewrite Hbalance; cbn.
  all: eexists; split; [reflexivity|]; cbn; apply lookup_insert_eq.
Qed.

(** A connect that returns has cached the session. *)
Lemma connect_account_caches info (self self' : MetaAPIClient) :
  connect_account login password server platform self = (Ok info, self') ->
  exists entry, accounts self' !! login = Some entry.
Proof.
  unfold connect_account, connect_sequence. run. intros Hrun.
  repeat next_answer; try discriminate.
  all: injection Hrun as _ <-; cbn; eexists; apply lookup_insert_eq.
Qed.

End sequence.

(** C2: after a successful connect for login L, a trade for L finds the
    cached session: [place_trade] issues exactly one SDK call, the market
    order on the cached connection, which is no step of the connect sequence
    (no registry lookup, account creation, deploy, wait or synchronize), and
    [self.accounts] is what it was. *)
Theorem trade_after_connect_reuses_session
    (L password server platform : string) (info : dict) (self0 self : MetaAPIClient)
    (symbol : string) (volume : value) (action : string) (sl tp : value) :
  connect_account L password server platform self0 = (Ok info, self) ->
  exists entry r self',
    accounts self !! L = Some entry /\
    place_trade (VStr L) symbol volume action sl tp self = (r, self') /\
    accounts self' = accounts self /\
    sdk_calls self' =
      sdk_calls self ++ [order_call (s_connection entry) symbol volume action sl tp] /\
    is_connect_step (order_call (s_connection entry) symbol volume action sl tp) = false.
Proof.
  intros Hconnect.
  destruct (connect_account_caches _ _ _ _ _ _ _ Hconnect) as [entry Hentry].
  exists entry. eexists _, _. split; [exact Hentry|].
  split; [by apply place_trade_cached|]. cbn.
  repeat split. unfold order_call. by destruct (String.eqb (lower action) "buy").
Qed.

(** C3: when a step of the connect sequence fails (registry lookup, account
    creation, deploy, wait_deployed, wait_connected, opening the RPC
    connection, RPC connect, wait_synchronized, account information), with
    exception e, [connect_account] raises
    [Exception("MetaAPI connection failed: " + str(e))] and [self.accounts]
    is exactly what it was before the call. *)
Theorem connect_failure_caches_nothing
    (login password server platform : string) (e : exn) (self : MetaAPIClient) :
  step_failure login password server platform e ->
  exists self',
    connect_account login password server platform self =
      (Raise (PyException ("MetaAPI connection failed: " ++ exn_str e)), self') /\
    accounts self' = accounts self /\
    accounts self' !! login = accounts self !! login.
Proof.
  intros Hfail.
  destruct (step_failure_aborts login password server platform e self Hfail)
    as (self' & Hrun & Hsame).
  exists self'. by rewrite Hrun, Hsame.
Qed.

(** C4: for a login with no cached session each of the four operations
    raises the "Account not connected" exception and calls nothing; with a
    cached session, an exception of the SDK call reaches the caller
    unchanged, after that one call: there is no second attempt.  An
    exception of the SDK's own classes is never the guard's exception. *)
Theorem facade_failures_propagate (self : MetaAPIClient) (L : string) :
  (accounts self !! L = None ->
   (forall symbol volume action sl tp,
      place_trade (VStr L) symbol volume action sl tp self = (Raise not_connected, self)) /\
   (forall position_id,
      close_position (VStr L) position_id self = (Raise not_connected, self)) /\
   get_positions (VStr L) self = (Raise not_connected, self) /\
   get_account_info (VStr L) self =
     (Raise (PyException "Account not connected. Please connect first."), self)) /\
  (forall entry e,
   accounts self !! L = Some entry ->
   let c := s_connection entry in
   (forall symbol volume action sl tp,
      order_answer c symbol volume action sl tp = Raise e ->
      place_trade (VStr L) symbol volume action sl tp self =
        (Raise e, called self [order_call c symbol volume action sl tp])) /\
   (forall position_id,
      connection_close_position c position_id = Raise e ->
      close_position (VStr L) position_id self =
        (Raise e, called self [close_position_call c position_id])) /\
   (connection_get_positions c = Raise e ->
    get_positions (VStr L) self = (Raise e, called self [get_positions_call c])) /\
   (connection_get_account_information c = Raise e ->
    get_account_info (VStr L) self =
      (Raise e, called self [get_account_information_call c]))) /\
  (forall cls msg,
   SdkError cls msg <> not_connected /\
   SdkError cls msg <> PyException "Account not connected. Please connect first.").
Proof.
  split; [|split; [|done]].
  - intros Hout. repeat split; intros.
    + by apply place_trade_not_connected.
    + by apply close_position_not_connected.
    + by apply get_positions_not_connected.
    + by apply get_account_info_not_connected.
  - intros entry e Hin c. repeat split; intros.
    + erewrite place_trade_cached by done. by f_equal.
    + erewrite close_position_cached by done. by f_equal.
    + erewrite get_positions_cached by done. by f_equal.
    + by apply get_account_info_upstream_failure.
Qed.

End facts.

Import demo.

Lemma trade_after_connect_reuses_session_witness :
  connect_account "100200" "s3cret" "Demo-1" "mt5" new_client =
    (Ok (<["name" := VStr "100200"]> (<["leverage" := VInt 100]>
          (<["freeMargin" := VInt 0]> (<["margin" := VInt 0]> demo_snapshot)))),
     connected.2) /\
  exists entry r self',
    accounts connected.2 !! "100200" = Some entry /\
    place_trade (VStr "100200") "EURUSD" (VFloat (float_of_int 1)) "buy" VNone VNone
      connected.2 = (r, self') /\
    accounts self' = accounts connected.2 /\
    sdk_calls self' =
      sdk_calls connected.2 ++
        [order_call (s_connection entry) "EURUSD" (VFloat (float_of_int 1)) "buy" VNone VNone] /\
    is_connect_step
      (order_call (s_connection entry) "EURUSD" (VFloat (float_of_int 1)) "buy" VNone VNone)
      = false.
Proof.
  assert (Hrun : connect_account "100200" "s3cret" "Demo-1" "mt5" new_client =
    (Ok (<["name" := VStr "100200"]> (<["leverage" := VInt 100]>
          (<["freeMargin" := VInt 0]> (<["margin" := VInt 0]> demo_snapshot)))),
     connected.2)) by reflexivity.
  split; [exact Hrun|].
  exact (trade_after_connect_reuses_session "100200" "s3cret" "Demo-1" "mt5" _
           new_client connected.2 "EURUSD" (VFloat (float_of_int 1)) "buy" VNone VNone Hrun).
Defined.

Lemma connect_failure_caches_nothing_witness :
  step_failure "555000" "s3cret" "Demo-1" "mt5"
    (SdkError "TimeoutException" "deployment timed out") /\
  exists self',
    connect_account "555000" "s3cret" "Demo-1" "mt5" connected.2 =
      (Raise (PyException "MetaAPI connection failed: deployment timed out"), self') /\
    accounts self' = accounts connected.2 /\
    accounts self' !! "555000" = accounts connected.2 !! "555000".
Proof.
  assert (Hfail : step_failure "555000" "s3cret" "Demo-1" "mt5"
                    (SdkError "TimeoutException" "deployment timed out")).
  { eapply deploy_fails; reflexivity. }
  split; [exact Hfail|].
  exact (connect_failure_caches_nothing "555000" "s3cret" "Demo-1" "mt5" _
           connected.2 Hfail).
Defined.

(** The two branches of C4 on the demo backend: a sell order is refused
    upstream, and a login that never connected is stopped by the guard. *)
Example sell_refused_upstream :
  place_trade (VStr "100200") "EURUSD" (VFloat (float_of_int 1)) "sell" VNone VNone
    connected.2 =
  (Raise (SdkError "TradeException" "Market is closed"),
   called connected.2
     [create_market_sell_order_call {| conn_account := known_account |} "EURUSD"
        (VFloat (float_of_int 1)) VNone VNone]).
Proof. vm_compute. reflexivity. Qed.

Example trade_without_session :
  place_trade (VStr "555000") "EURUSD" (VFloat (float_of_int 1)) "sell" VNone VNone
    connected.2 =
  (Raise not_connected, connected.2).
Proof. vm_compute. reflexivity. Qed.

End metaapi_client_facts.

(** ** The document store gateway *)

Module appwrite_client_facts.
Import appwrite_client.

(** The fault, if any, that meets the next request. *)
Definition next_fault (db : store) : option string :=
  match faults db with
  | Some msg :: _ => Some msg
  | _ => None
  end.

(** What identifies a user document: its id and its (login, server) pair. *)
Definition user_key (d : dict) : option value * (option value * option value) :=
  (d !! "$id", (d !! "broker_account", d !! "server")).

(** The invariant of the Users collection: one document a (login, server)
    pair. *)
Definition one_user_per_account (db : store) : Prop :=
  NoDup (map (fun d => (user_key d).2) (users db)).

Ltac run :=
  unfold _make_request, try_except, bind, ret, raise, lift in *;
  cbn [existsb String.eqb Ascii.eqb Bool.eqb orb fst snd] in *.

Lemma next_fault_None (db : store) :
  next_fault db = None ->
  forall method p data q, exchange method p data q db = serve method p data q (drop_fault db).
Proof.
  unfold next_fault, exchange. intros Hq method p data q.
  by destruct (faults db) as [|[msg|] fs].
Qed.

Lemma next_fault_Some (db : store) (msg : string) :
  next_fault db = Some msg ->
  forall method p data q, exchange method p data q db = (Failed msg, drop_fault db).
Proof.
  unfold next_fault, exchange. intros Hq method p data q.
  destruct (faults db) as [|[m|] fs]; naive_solver.
Qed.

(** *** Reading a user *)

Lemma get_user_by_id_found (db : store) (uid : string) (user : dict) :
  next_fault db = None ->
  List.find (has_id uid) (users db) = Some user ->
  get_user_by_id uid db = (Ok (Some user), drop_fault db).
Proof.
  intros Hq Hfind. unfold get_user_by_id. run.
  rewrite next_fault_None by done. cbn. by rewrite Hfind.
Qed.

(** A transport failure comes back as the payload [{"error": msg}], not as
    [None]. *)
Lemma get_user_by_id_transport_failure (db : store) (uid msg : string) :
  next_fault db = Some msg ->
  get_user_by_id uid db = (Ok (Some {["error" := VStr msg]}), drop_fault db).
Proof.
  intros Hq. unfold get_user_by_id. run. by rewrite (next_fault_Some db msg).
Qed.




(** *** Writing *)

Lemma users_drop_fault (db : store) : users (drop_fault db) = users db.
Proof. done. Qed.


Lemma update_user_returns (db : store) (uid : string) (data : dict) :
  exists r db', update_user uid data db = (Ok r, db').
Proof.
  unfold update_user. run.
  destruct (exchange _ _ _ _ _) as [[[content|]|msg] db']; by eexists _, _.
Qed.

(** A create that reaches the store appends the document, under a new id. *)
Lemma create_position_stores (db : store) (data : dict) :
  next_fault db = None ->
  let doc := <["$id" := VStr ("doc" ++ pretty (next_id db))]> data in
  exists db',
    create_position data db = (Ok doc, db') /\
    positions db' = positions db ++ [doc] /\
    users db' = users db.
Proof.
  intros Hq doc. unfold create_position. run.
  rewrite next_fault_None by done. cbn. by eexists.
Qed.

End appwrite_client_facts.

(** ** The request handlers *)

Module main_facts.
Import encryption appwrite_client main appwrite_client_facts.

Ltac run :=
  unfold found, falsy_to_none, in_store, with_client, require_client, try_except,
    bind, lift, ret, raise in *;
  cbn [fst snd the_metaapi_client the_store] in *.

(* The handlers are reasoned about through the facts of what they call. *)
#[local] Arguments metaapi_client.place_trade : simpl never.
#[local] Arguments metaapi_client.connect_account : simpl never.
#[local] Arguments metaapi_client.get_account_info : simpl never.
#[local] Arguments get_user_by_id : simpl never.
#[local] Arguments get_user_by_broker_account : simpl never.
#[local] Arguments update_user : simpl never.
#[local] Arguments create_user : simpl never.
#[local] Arguments create_position : simpl never.
#[local] Arguments encrypt_password : simpl never.
#[local] Arguments decrypt_password : simpl never.

Lemma dict_truthy_lookup (d : dict) (k : string) (v : value) :
  d !! k = Some v -> dict_truthy d = true.
Proof.
  intros Hk. unfold dict_truthy. rewrite bool_decide_eq_false_2; [done|].
  intros ->. by rewrite lookup_empty in Hk.
Qed.

Section facts.
Context `{Host} `{Pydantic} `{AesGcm} `{metaapi_client.MetaApi}.

(** The world after one request went to the store and changed nothing
    there. *)
Definition after_request (w : world) : world :=
  {| the_metaapi_client := the_metaapi_client w; the_store := drop_fault (the_store w) |}.

(** *** [GET /api/users/{user_id}] *)

(** C10: when the request to the store fails in transport, [get_user_by_id]
    returns the payload [{"error": msg}], which is truthy; the handler
    passes the 404 test, fails on [user["$id"]] with [KeyError], and the
    application answers 500. *)
Theorem get_user_store_failure_is_500 (w : world) (uid msg : string) :
  next_fault (the_store w) = Some msg ->
  get_user_by_id uid (the_store w) =
    (Ok (Some {["error" := VStr msg]}), drop_fault (the_store w)) /\
  get_user uid w = (Raise (KeyError "$id"), after_request w) /\
  status_of (app (get_user uid) w).1 = 500%Z.
Proof.
  intros Hfault.
  pose proof (get_user_by_id_transport_failure _ uid msg Hfault) as Hget.
  split; [exact Hget|].
  assert (Hrun : get_user uid w = (Raise (KeyError "$id"), after_request w)).
  { unfold get_user. run. rewrite Hget.
    rewrite (dict_truthy_lookup _ "error" (VStr msg)) by apply lookup_singleton_eq.
    cbn. unfold getitem. by rewrite lookup_singleton_ne. }
  split; [exact Hrun|]. unfold app. by rewrite Hrun.
Qed.

(** *** [POST /api/users/connect] *)

(** Whatever happens inside the handler's [try], the answer is a 200 or a
    500: the handler's [except Exception] also catches the 503 it raised
    itself. *)
Lemma connect_broker_status (data : BrokerConnect) (w : world) :
  status_of (app (connect_broker data) w).1 = 200%Z \/
  status_of (app (connect_broker data) w).1 = 500%Z.
Proof.
  unfold app, connect_broker, try_except, raise.
  destruct (bind _ _ w) as [[body|e] w']; cbn; auto.
Qed.

Lemma connect_broker_without_backend (data : BrokerConnect) (db : store) :
  let w := {| the_metaapi_client := None; the_store := db |} in
  connect_broker data w =
    (Raise (HTTPException 500
       ("Connection failed: " ++
        exn_str (HTTPException 503
          "MetaAPI not configured. Set METAAPI_TOKEN environment variable."))), w).
Proof. reflexivity. Qed.

Lemma app_world {A} (handler : M world A) (w : world) :
  (app handler w).2 = (handler w).2.
Proof. unfold app. by destruct (handler w) as [[body|[]] w']. Qed.


(** C5, on the code: with no trading backend configured the answer of
    [POST /api/users/connect] is a 500, whose detail quotes the 503 that was
    raised and caught. *)
Theorem connect_broker_unconfigured_is_500 (data : BrokerConnect) (db : store) :
  let w := {| the_metaapi_client := None; the_store := db |} in
  connect_broker data w =
    (Raise (HTTPException 500
       ("Connection failed: " ++
        exn_str (HTTPException 503
          "MetaAPI not configured. Set METAAPI_TOKEN environment variable."))), w) /\
  status_of (app (connect_broker data) w).1 = 500%Z /\
  status_of (app (connect_broker data) w).1 <> 503%Z.
Proof.
  intros w. pose proof (connect_broker_without_backend data db) as Hrun.
  split; [exact Hrun|]. unfold app. cbv zeta in Hrun. fold w in Hrun.
  rewrite Hrun. by cbn.
Qed.

(** The second half of C5: a failed connect is a 500. *)
Lemma connect_broker_failure_is_500 (data : BrokerConnect) (w w' : world) (e : exn) :
  connect_broker data w = (Raise e, w') ->
  status_of (app (connect_broker data) w).1 = 500%Z.
Proof.
  intros Hrun. unfold connect_broker, try_except, raise in Hrun.
  destruct (bind _ _ w) as [[body|e'] w''] eqn:Hbody; [done|].
  unfold app, connect_broker, try_except, raise. by rewrite Hbody.
Qed.

(** *** [GET /api/users/{user_id}/account] *)

(** A stored user document with the attributes the handler reads, of the
    types of the collection's schema. *)
Record well_formed_user (user : dict) (a s : string) (b e : float) (cur : string)
  : Prop := {
  wf_account : user !! "broker_account" = Some (VStr a);
  wf_server : user !! "server" = Some (VStr s);
  wf_balance : user !! "balance" = Some (VFloat b);
  wf_equity : user !! "equity" = Some (VFloat e);
  wf_currency : dict_get user "currency" (VStr "USD") = VStr cur;
}.

(** C6: the store returns the well-formed document of the user id, the
    trading backend is configured, and the live call
    [metaapi_client.get_account_info] raises: the handler answers 200 with
    the balance and equity of the document (margins 0, the stored
    currency). *)
Theorem account_info_falls_back_to_stored
    (w : world) (uid : string) (user : dict) (a s : string) (b e : float)
    (cur : string) (client client' : metaapi_client.MetaAPIClient) (err : exn) :
  next_fault (the_store w) = None ->
  List.find (has_id uid) (users (the_store w)) = Some user ->
  well_formed_user user a s b e cur ->
  the_metaapi_client w = Some client ->
  metaapi_client.get_account_info (VStr a) client = (Raise err, client') ->
  app (get_account_info uid) w =
    (Success {| user_id := uid; broker_account := a; response_server := s;
                balance := b; equity := e;
                margin := float_of_int 0; free_margin := float_of_int 0;
                currency := cur |},
     {| the_metaapi_client := Some client'; the_store := drop_fault (the_store w) |}) /\
  status_of (app (get_account_info uid) w).1 = 200%Z.
Proof.
  intros Hq Hfind [Ha Hs Hb He Hc] Hclient Hlive.
  assert (Hrun : get_account_info uid w =
    (Ok {| user_id := uid; broker_account := a; response_server := s;
           balance := b; equity := e;
           margin := float_of_int 0; free_margin := float_of_int 0;
           currency := cur |},
     {| the_metaapi_client := Some client'; the_store := drop_fault (the_store w) |})).
  { unfold get_account_info. run.
    rewrite (get_user_by_id_found _ uid user Hq Hfind).
    rewrite (dict_truthy_lookup _ _ _ Ha), Hclient. cbn.
    unfold getitem at 1. rewrite Ha, Hlive. cbn.
    unfold getitem. rewrite Ha, Hs, Hb, He, Hc. cbn.
    unfold new_AccountInfoResponse.
    by rewrite !validate_str_text, !validate_float_float, !validate_float_int. }
  split; [|unfold app; by rewrite Hrun].
  unfold app. by rewrite Hrun.
Qed.

(** *** [POST /api/trade] *)

(** Reading an attribute of a dict literal. *)
Ltac read_literal :=
  repeat (rewrite lookup_insert_ne by done); rewrite ?lookup_insert_eq; try done.

Lemma fill_price_open_price (result : dict) (dflt p : value) :
  result !! "openPrice" = Some p -> fill_price result dflt = p.
Proof. intros Hp. unfold fill_price, dict_get. by rewrite Hp. Qed.

Lemma fill_price_price (result : dict) (dflt p : value) :
  result !! "openPrice" = None -> result !! "price" = Some p ->
  fill_price result dflt = p.
Proof. intros Hn Hp. unfold fill_price, dict_get. by rewrite Hn, Hp. Qed.

(** An optional number of the request that the body of the create can
    carry. *)
Definition finite_or_absent (o : option float) : bool :=
  match o with
  | Some f => isfinite f
  | None => true
  end.

(** C7 (amended): the backend is configured, the store answers the lookup
    of the user and holds it, its login has a cached session, the market
    order succeeds with [result], and the store takes the create: the
    request for it reaches the store, and its body can be encoded (the
    volume, stop loss and take profit of the request are finite and the fill
    price of [result] is a scalar that JSON has).  Then the handler answers
    200 and the store holds one more Position document, with status "open",
    profit 0.0 and as open price the fill price of [result] (its
    "openPrice", else its "price"). *)
Theorem trade_persists_open_position
    (w : world) (trade : TradeRequest) (user : dict) (L : string)
    (client : metaapi_client.MetaAPIClient) (entry : metaapi_client.session)
    (result : dict) :
  the_metaapi_client w = Some client ->
  next_fault (the_store w) = None ->
  next_fault (drop_fault (the_store w)) = None ->
  List.find (has_id (trade_user_id trade)) (users (the_store w)) = Some user ->
  user !! "broker_account" = Some (VStr L) ->
  metaapi_client.accounts client !! L = Some entry ->
  metaapi_client_facts.order_answer (metaapi_client.s_connection entry) (symbol trade)
    (VFloat (volume trade)) (type trade) (opt_float (stop_loss trade))
    (opt_float (take_profit trade)) = Ok result ->
  isfinite (volume trade) = true ->
  finite_or_absent (stop_loss trade) = true ->
  finite_or_absent (take_profit trade) = true ->
  json_scalar (fill_price result (VInt 0)) = true ->
  exists body w' doc,
    app (place_trade trade) w = (Success body, w') /\
    positions (the_store w') = positions (the_store w) ++ [doc] /\
    doc !! "status" = Some (VStr "open") /\
    doc !! "open_price" = Some (fill_price result (VInt 0)) /\
    doc !! "profit" = Some (VFloat float_zero) /\
    doc !! "user_id" = Some (VStr (trade_user_id trade)) /\
    body !! "position_id" = doc !! "$id" /\
    (forall p, result !! "openPrice" = Some p ->
       doc !! "open_price" = Some p /\ body !! "price" = Some p) /\
    (forall p, result !! "openPrice" = None -> result !! "price" = Some p ->
       doc !! "open_price" = Some p /\ body !! "price" = Some p).
Proof.
  intros Hclient Hq1 Hq2 Hfind HL Hentry Hfill _ _ _ _.
  destruct w as [mc db]; cbn [the_metaapi_client the_store] in *; subst mc.
  destruct (create_position_stores (drop_fault db)
              (position_data trade result) Hq2) as (db' & Hcreate & Hpos & _).
  eexists _, _, _. split.
  - unfold app, place_trade. run.
    rewrite (get_user_by_id_found _ _ user Hq1 Hfind).
    rewrite (dict_truthy_lookup _ _ _ HL). cbn.
    unfold getitem at 1. rewrite HL. cbn.
    rewrite (metaapi_client_facts.place_trade_cached _ _ entry) by done.
    rewrite Hfill. cbn. rewrite Hcreate. cbn.
    unfold getitem. rewrite lookup_insert_eq. reflexivity.
  - cbn. split; [exact Hpos|]. unfold position_data.
    repeat split; intros; read_literal;
      first [ by erewrite fill_price_open_price by eassumption
            | by erewrite fill_price_price by eassumption ].
Qed.

(** *** [POST /api/users/connect]: the user document and the password *)








End facts.

Import demo.

Lemma get_user_store_failure_is_500_witness :
  next_fault (the_store cut_off_world) = Some "Connection refused" /\
  get_user_by_id "u1" (the_store cut_off_world) =
    (Ok (Some {["error" := VStr "Connection refused"]}),
     drop_fault (the_store cut_off_world)) /\
  get_user "u1" cut_off_world = (Raise (KeyError "$id"), after_request cut_off_world) /\
  status_of (app (get_user "u1") cut_off_world).1 = 500%Z.
Proof.
  split; [reflexivity|].
  apply (get_user_store_failure_is_500 cut_off_world "u1" "Connection refused").
  reflexivity.
Defined.

Lemma account_info_falls_back_to_stored_witness :
  well_formed_user demo_user "100200" "Demo-1" (float_of_int 1000) (float_of_int 990)
    "USD" /\
  metaapi_client.get_account_info (VStr "100200") metaapi_client.new_client =
    (Raise (PyException "Account not connected. Please connect first."),
     metaapi_client.new_client) /\
  app (get_account_info "u1") restarted_world =
    (Success {| user_id := "u1"; broker_account := "100200";
                response_server := "Demo-1";
                balance := float_of_int 1000; equity := float_of_int 990;
                margin := float_of_int 0; free_margin := float_of_int 0;
                currency := "USD" |},
     {| the_metaapi_client := Some metaapi_client.new_client;
        the_store := drop_fault (the_store restarted_world) |}) /\
  status_of (app (get_account_info "u1") restarted_world).1 = 200%Z.
Proof.
  assert (Hwf : well_formed_user demo_user "100200" "Demo-1" (float_of_int 1000)
                  (float_of_int 990) "USD") by (split; reflexivity).
  assert (Hlive : metaapi_client.get_account_info (VStr "100200")
                    metaapi_client.new_client =
    (Raise (PyException "Account not connected. Please connect first."),
     metaapi_client.new_client)) by reflexivity.
  split; [exact Hwf|]. split; [exact Hlive|].
  apply (account_info_falls_back_to_stored restarted_world "u1" demo_user
           "100200" "Demo-1" (float_of_int 1000) (float_of_int 990) "USD"
           metaapi_client.new_client metaapi_client.new_client
           (PyException "Account not connected. Please connect first."));
    [reflexivity | reflexivity | exact Hwf
    | reflexivity | exact Hlive].
Defined.

(** C7, as stated, fails: the session of the login is cached and the
    backend fills the order, but the request that creates the document
    fails in transport: the answer is 500 and no Position document is
    stored. *)
Lemma trade_filled_but_not_persisted :
  (metaapi_client.accounts connected.2 !! "100200" =
     Some {| metaapi_client.s_account := known_account;
             metaapi_client.s_connection :=
               {| metaapi_client.conn_account := known_account |} |}) /\
  (metaapi_client_facts.order_answer {| metaapi_client.conn_account := known_account |}
     "EURUSD" (VFloat (float_of_int 1)) "buy" VNone VNone = Ok demo_fill) /\
  status_of (app (place_trade demo_trade) flaky_world).1 = 500%Z /\
  positions (the_store (app (place_trade demo_trade) flaky_world).2) = [].
Proof. repeat split; vm_compute; reflexivity. Qed.

Lemma trade_persists_open_position_witness :
  exists body w' doc,
    app (place_trade demo_trade) connected_world = (Success body, w') /\
    positions (the_store w') = positions (the_store connected_world) ++ [doc] /\
    doc !! "status" = Some (VStr "open") /\
    doc !! "open_price" = Some (fill_price demo_fill (VInt 0)) /\
    doc !! "profit" = Some (VFloat float_zero) /\
    doc !! "user_id" = Some (VStr "u1") /\
    body !! "position_id" = doc !! "$id" /\
    (forall p, demo_fill !! "openPrice" = Some p ->
       doc !! "open_price" = Some p /\ body !! "price" = Some p) /\
    (forall p, demo_fill !! "openPrice" = None -> demo_fill !! "price" = Some p ->
       doc !! "open_price" = Some p /\ body !! "price" = Some p).
Proof.
  apply (trade_persists_open_position connected_world demo_trade demo_user "100200"
           connected.2
           {| metaapi_client.s_account := known_account;
              metaapi_client.s_connection :=
                {| metaapi_client.conn_account := known_account |} |}
           demo_fill); reflexivity.
Defined.



(** The demo service end to end: the stored password, not the typed one,
    reaches the backend, and the answer carries the stored user's id. *)
Example connect_existing_user :
  (app (connect_broker demo_connect) restarted_world).1 =
  Success {| user_id := "u1"; broker_account := "100200"; response_server := "Demo-1";
             balance := float_of_int 1000; equity := float_of_int 990;
             margin := float_of_int 0; free_margin := float_of_int 0;
             currency := "USD" |}.
Proof. vm_compute. reflexivity. Qed.

End main_facts.

(** ** More on the credential cipher *)

Module encryption_more.
Import encryption encryption_facts demo.

Lemma length_b64encode (bs : bytes) :
  length (b64encode bs) = 4 * ((length bs + 2) / 3).
Proof.
  induction bs as [|a|a b|a b c rest IH] using bytes_ind3; cbn [b64encode length];
    try reflexivity.
  rewrite IH. change (S (S (S (length rest))) + 2) with (1 * 3 + (length rest + 2)).
  rewrite Nat.div_add_l by lia. lia.
Qed.

Lemma length_string_of_list_ascii (l : list ascii) :
  String.length (string_of_list_ascii l) = length l.
Proof. induction l as [|a l IH]; cbn; [done|by rewrite IH]. Qed.

Lemma length_list_ascii_of_string (s : string) :
  length (list_ascii_of_string s) = String.length s.
Proof. induction s as [|a s IH]; cbn; [done|by rewrite IH]. Qed.

(** The text of a field, when it decodes. *)
Lemma bytes_decode_Ok (bs : bytes) (s : string) :
  bytes_decode bs = Ok s -> s = string_of_list_ascii bs /\ utf8_valid bs = true.
Proof.
  unfold bytes_decode. destruct (utf8_valid bs); [|done]. by intros [= <-].
Qed.

Section more.
Context `{AesGcm}.

(** What [encrypt_password] returns, when it returns. *)
Lemma encrypt_password_Ok (rnd : nat -> ascii) (P : string) (e : encrypted_password) :
  encrypt_password rnd P = Ok e ->
  let ct := ctr_xor ENCRYPTION_KEY (urandom rnd 16) 0 (list_ascii_of_string P) in
  encodable P = true /\
  encrypted e = string_of_list_ascii (b64encode ct) /\
  iv e = string_of_list_ascii (b64encode (urandom rnd 16)) /\
  auth_tag e =
    string_of_list_ascii (b64encode (gcm_tag ENCRYPTION_KEY (urandom rnd 16) ct)).
Proof.
  unfold encrypt_password, str_encode, gcm_encrypt.
  destruct (gcm_mode_urandom rnd [] [] []) as [-> _]. cbn [rbind].
  destruct (encodable P); [|done]. cbn [rbind].
  rewrite !decode_ascii by apply b64encode_ascii. cbn [rbind].
  intros Heq.
  pose proof (f_equal (fun r => match r with Ok x => x | Raise _ => e end) Heq) as He.
  cbv beta iota in He. subst e. cbn [encrypted iv auth_tag].
  split; [reflexivity|]. split; [reflexivity|]. split; reflexivity.
Qed.

Lemma length_ctr_xor (key nonce : bytes) (i : nat) (data : bytes) :
  length (ctr_xor key nonce i data) = length data.
Proof.
  revert i; induction data as [|b data IH]; intros i; cbn; [done|by rewrite IH].
Qed.

(** X1: the fields [encrypt_password] returns have fixed sizes: the iv and
    the auth_tag are 24 characters each, and the encrypted password is 4
    characters for every 3 bytes (or rest of them) of the UTF-8 password. *)
Theorem encrypted_fields_sizes (rnd : nat -> ascii) (P : string) (e : encrypted_password) :
  encrypt_password rnd P = Ok e ->
  String.length (iv e) = 24 /\
  String.length (auth_tag e) = 24 /\
  String.length (encrypted e) = 4 * ((String.length P + 2) / 3).
Proof.
  intros (_ & -> & -> & ->)%encrypt_password_Ok.
  rewrite !length_string_of_list_ascii, !length_b64encode.
  unfold gcm_tag.
  by rewrite length_urandom, length_be_bytes, length_ctr_xor, length_list_ascii_of_string.
Qed.

(** What [decrypt_password] went through, when it returns. *)
Lemma decrypt_password_Ok (c i t s : string) :
  decrypt_password c i t = Ok s ->
  exists ct nonce tag,
    b64decode c = Ok ct /\ b64decode i = Ok nonce /\ b64decode t = Ok tag /\
    tag = gcm_tag ENCRYPTION_KEY nonce ct /\
    s = string_of_list_ascii (ctr_xor ENCRYPTION_KEY nonce 0 ct) /\
    encodable s = true.
Proof.
  unfold decrypt_password.
  destruct (b64decode c) as [ct|]; [|done].
  destruct (b64decode i) as [nonce|]; [|done].
  destruct (b64decode t) as [tag|]; [|done]. cbn [rbind].
  destruct (gcm_mode nonce (Some tag)) as [[]|]; [|done]. cbn [rbind].
  unfold gcm_decrypt. case_bool_decide as Htag; [|done]. cbn [rbind].
  intros [-> Hvalid]%bytes_decode_Ok.
  exists ct, nonce, tag. repeat split; try done.
  unfold encodable. by rewrite list_ascii_of_string_of_list_ascii.
Qed.

(** X2: [decrypt_password] returns a password only for authentic fields: the
    three fields are base64, the tag is the tag of this ciphertext under the
    module key and this iv, and the password is well-formed text. *)
Theorem decrypt_password_authentic (c i t s : string) :
  decrypt_password c i t = Ok s ->
  exists ct nonce tag,
    b64decode c = Ok ct /\ b64decode i = Ok nonce /\ b64decode t = Ok tag /\
    tag = gcm_tag ENCRYPTION_KEY nonce ct /\
    encodable s = true.
Proof.
  intros (ct & nonce & tag & Hc & Hi & Ht & Htag & _ & Hs)%decrypt_password_Ok.
  by exists ct, nonce, tag.
Qed.

(** X3: a stored password whose auth_tag field was replaced by another tag
    does not decrypt: [decrypt_password] raises. *)
Theorem tampered_tag_is_refused
    (rnd : nat -> ascii) (P : string) (e : encrypted_password) (t' : string) :
  encrypt_password rnd P = Ok e ->
  b64decode t' <> b64decode (auth_tag e) ->
  exists exc, decrypt_password (encrypted e) (iv e) t' = Raise exc.
Proof.
  intros (_ & Hc & Hi & Ht)%encrypt_password_Ok Hother.
  destruct (decrypt_password (encrypted e) (iv e) t') as [s|exc] eqn:Hdec;
    [|by eexists].
  apply decrypt_password_Ok in Hdec as (ct & nonce & tag & Hct & Hnonce & Htag & -> & _).
  rewrite Hc, b64decode_b64encode in Hct. injection Hct as <-.
  rewrite Hi, b64decode_b64encode in Hnonce. injection Hnonce as <-.
  rewrite Ht, b64decode_b64encode in Hother. by destruct Hother.
Qed.

End more.

Lemma encrypted_fields_sizes_witness :
  encrypt_password demo_rnd "s3cret" = Ok stored_credentials /\
  String.length (iv stored_credentials) = 24 /\
  String.length (auth_tag stored_credentials) = 24 /\
  String.length (encrypted stored_credentials) = 4 * ((String.length "s3cret" + 2) / 3).
Proof.
  assert (Hrun : encrypt_password demo_rnd "s3cret" = Ok stored_credentials)
    by (vm_compute; reflexivity).
  split; [exact Hrun|]. exact (encrypted_fields_sizes demo_rnd "s3cret" _ Hrun).
Defined.

Lemma decrypt_password_authentic_witness :
  decrypt_password (encrypted stored_credentials) (iv stored_credentials)
    (auth_tag stored_credentials) = Ok "s3cret" /\
  exists ct nonce tag,
    b64decode (encrypted stored_credentials) = Ok ct /\
    b64decode (iv stored_credentials) = Ok nonce /\
    b64decode (auth_tag stored_credentials) = Ok tag /\
    tag = gcm_tag ENCRYPTION_KEY nonce ct /\
    encodable "s3cret" = true.
Proof.
  assert (Hrun : decrypt_password (encrypted stored_credentials) (iv stored_credentials)
                   (auth_tag stored_credentials) = Ok "s3cret")
    by (vm_compute; reflexivity).
  split; [exact Hrun|]. exact (decrypt_password_authentic _ _ _ _ Hrun).
Defined.

Lemma tampered_tag_is_refused_witness :
  encrypt_password demo_rnd "s3cret" = Ok stored_credentials /\
  b64decode "AAAAAAAAAAAAAAAAAAAAAA==" <> b64decode (auth_tag stored_credentials) /\
  exists exc,
    decrypt_password (encrypted stored_credentials) (iv stored_credentials)
      "AAAAAAAAAAAAAAAAAAAAAA==" = Raise exc.
Proof.
  assert (Hrun : encrypt_password demo_rnd "s3cret" = Ok stored_credentials)
    by (vm_compute; reflexivity).
  assert (Hother : b64decode "AAAAAAAAAAAAAAAAAAAAAA==" <>
                   b64decode (auth_tag stored_credentials))
    by (vm_compute; discriminate).
  split; [exact Hrun|]. split; [exact Hother|].
  exact (tampered_tag_is_refused demo_rnd "s3cret" _ _ Hrun Hother).
Defined.

End encryption_more.

(** ** More on the broker session manager *)

Module metaapi_client_more.
Import metaapi_client metaapi_client_facts demo.

Section more.
Context `{MetaApi}.

(** The SDK calls of a connect sequence that goes through, in order: the
    account is created only when the registry has none of this login and
    server. *)
Definition connect_calls (login password server platform : string)
    (accs : list account) (acc : account) (c : connection) : list sdk_call :=
  get_accounts_call ::
  match find_account login server accs with
  | Some _ => []
  | None => [create_account_call (new_account_args login password server platform)]
  end ++
  [deploy_call acc; wait_deployed_call acc; wait_connected_call acc;
   get_rpc_connection_call acc; connect_call c; wait_synchronized_call c;
   get_account_information_call c].

(** X4: a connect sequence whose steps all succeed calls the SDK in one
    order: registry lookup, account creation only if the lookup found no
    account of this login and server (so the password reaches the backend
    only then), deploy, wait_deployed, wait_connected, get_rpc_connection,
    connect, wait_synchronized, account information; and the session is
    cached under the login. *)
Theorem connect_account_call_order
    (login password server platform : string) (accs : list account)
    (acc : account) (c : connection) (info : dict) (self : MetaAPIClient) :
  api_get_accounts = Ok accs ->
  steps_succeed login password server platform acc c info ->
  let self' := (connect_account login password server platform self).2 in
  sdk_calls self' =
    sdk_calls self ++ connect_calls login password server platform accs acc c /\
  accounts self' = <[login := {| s_account := acc; s_connection := c |}]> (accounts self).
Proof.
  intros Haccs (Hl & Hd & Hwd & Hwc & Hrpc & Hc & Hws & Hinfo) self'. subst self'.
  unfold connect_calls, located_or_created in *. rewrite Haccs in Hl. cbn [rbind] in Hl.
  unfold connect_account, connect_sequence.
  unfold try_except, bind, ret, raise, lift, modify, sdk, cache. rewrite Haccs.
  destruct (find_account login server accs) as [found|].
  - injection Hl as ->. cbn. rewrite Hd, Hwd, Hwc, Hrpc. cbn.
    rewrite Hc, Hws, Hinfo. cbn.
    repeat match goal with
    | |- context [match ?x with _ => _ end] => innermost x; destruct x; cbn
    end; by rewrite <- !app_assoc.
  - cbn. rewrite Hl. cbn. rewrite Hd, Hwd, Hwc, Hrpc. cbn.
    rewrite Hc, Hws, Hinfo. cbn.
    repeat match goal with
    | |- context [match ?x with _ => _ end] => innermost x; destruct x; cbn
    end; by rewrite <- !app_assoc.
Qed.

(** Whatever happens, [connect_account] leaves the cache as it was or adds
    the entry of its login. *)
Lemma connect_account_cache (login password server platform : string)
    (self : MetaAPIClient) :
  let self' := (connect_account login password server platform self).2 in
  accounts self' = accounts self \/
  exists entry, accounts self' = <[login := entry]> (accounts self).
Proof.
  unfold connect_account, connect_sequence. run.
  repeat match goal with
  | |- context [match ?x with _ => _ end] => innermost x; destruct x; cbn
  end; eauto.
Qed.

(** X5: [connect_account] for one login never touches the cached session of
    another login, whether it succeeds or fails. *)
Theorem connect_account_keeps_other_sessions
    (login password server platform other : string) (self : MetaAPIClient) :
  other <> login ->
  accounts (connect_account login password server platform self).2 !! other =
    accounts self !! other.
Proof.
  intros Hother.
  destruct (connect_account_cache login password server platform self)
    as [->|[entry ->]]; [done|].
  by rewrite lookup_insert_ne.
Qed.

(** X6: the four operations of the trade facade only read the session
    cache: whatever the login (also one that is no text) and whatever the
    SDK answers, [self.accounts] is what it was. *)
Theorem facade_never_writes_cache (self : MetaAPIClient) (login : value) :
  (forall symbol volume action sl tp,
     accounts (place_trade login symbol volume action sl tp self).2 = accounts self) /\
  (forall position_id,
     accounts (close_position login position_id self).2 = accounts self) /\
  accounts (get_positions login self).2 = accounts self /\
  accounts (get_account_info login self).2 = accounts self.
Proof.
  repeat split; intros;
    unfold place_trade, close_position, get_positions, get_account_info; run;
    repeat match goal with
    | |- context [match ?x with _ => _ end] => innermost x; destruct x; cbn
    end; done.
Qed.

(** X7: [place_trade] sends a market buy only when the action is "buy" in
    some letter case; every other action text ("sell", but also "hold" or
    the empty text) is sent as a market sell. *)
Theorem anything_but_buy_is_sold
    (self : MetaAPIClient) (L : string) (entry : session) (symbol : string)
    (volume : value) (action : string) (sl tp : value) :
  accounts self !! L = Some entry ->
  lower action <> "buy" ->
  place_trade (VStr L) symbol volume action sl tp self =
    (connection_create_market_sell_order (s_connection entry) symbol volume sl tp,
     called self
       [create_market_sell_order_call (s_connection entry) symbol volume sl tp]).
Proof.
  intros Hin Hsell. rewrite (place_trade_cached self L entry) by done.
  unfold order_answer, order_call.
  destruct (String.eqb_spec (lower action) "buy"); done.
Qed.

(** X8: a connect can fail and still leave a session behind.  When every
    step went through but the account snapshot has no "balance", the cache
    was written before the failure: [connect_account] raises "MetaAPI
    connection failed: 'balance'", the session of the login stays in
    [self.accounts], and a trade for that login goes to the backend on it. *)
Theorem failed_connect_can_leave_a_session
    (login password server platform : string) (acc : account) (c : connection)
    (info : dict) (self : MetaAPIClient)
    (symbol : string) (volume : value) (action : string) (sl tp : value) :
  steps_succeed login password server platform acc c info ->
  info !! "balance" = None ->
  exists self',
    connect_account login password server platform self =
      (Raise (PyException "MetaAPI connection failed: 'balance'"), self') /\
    accounts self' !! login = Some {| s_account := acc; s_connection := c |} /\
    place_trade (VStr login) symbol volume action sl tp self' =
      (order_answer c symbol volume action sl tp,
       called self' [order_call c symbol volume action sl tp]).
Proof.
  intros Hsteps Hnone.
  destruct (late_failure_stays_cached login password server platform acc c info self
              Hsteps Hnone) as (self' & Hrun & Hcached).
  exists self'. split; [exact Hrun|]. split; [exact Hcached|].
  by rewrite (place_trade_cached self' login {| s_account := acc; s_connection := c |}).
Qed.

End more.

Lemma connect_account_call_order_witness :
  api_get_accounts = Ok [known_account] /\
  steps_succeed "100200" "s3cret" "Demo-1" "mt5" known_account
    {| conn_account := known_account |} demo_snapshot /\
  let self' := (connect_account "100200" "s3cret" "Demo-1" "mt5" new_client).2 in
  sdk_calls self' =
    sdk_calls new_client ++
      connect_calls "100200" "s3cret" "Demo-1" "mt5" [known_account] known_account
        {| conn_account := known_account |} /\
  accounts self' =
    <["100200" := {| s_account := known_account;
                     s_connection := {| conn_account := known_account |} |}]>
      (accounts new_client).
Proof.
  assert (Hsteps : steps_succeed "100200" "s3cret" "Demo-1" "mt5" known_account
                     {| conn_account := known_account |} demo_snapshot)
    by (repeat split; reflexivity).
  split; [reflexivity|]. split; [exact Hsteps|].
  exact (connect_account_call_order "100200" "s3cret" "Demo-1" "mt5" [known_account]
           known_account {| conn_account := known_account |} demo_snapshot new_client
           eq_refl Hsteps).
Defined.

Lemma connect_account_keeps_other_sessions_witness :
  "100200" <> "555000" /\
  accounts (connect_account "555000" "s3cret" "Demo-1" "mt5" connected.2).2 !! "100200" =
    accounts connected.2 !! "100200".
Proof.
  assert (Hother : "100200" <> "555000") by discriminate.
  split; [exact Hother|].
  exact (connect_account_keeps_other_sessions "555000" "s3cret" "Demo-1" "mt5"
           "100200" connected.2 Hother).
Defined.

Lemma anything_but_buy_is_sold_witness :
  accounts connected.2 !! "100200" =
    Some {| s_account := known_account;
            s_connection := {| conn_account := known_account |} |} /\
  lower "Hold" <> "buy" /\
  place_trade (VStr "100200") "EURUSD" (VFloat (float_of_int 1)) "Hold" VNone VNone
    connected.2 =
    (connection_create_market_sell_order {| conn_account := known_account |} "EURUSD"
       (VFloat (float_of_int 1)) VNone VNone,
     called connected.2
       [create_market_sell_order_call {| conn_account := known_account |} "EURUSD"
          (VFloat (float_of_int 1)) VNone VNone]).
Proof.
  assert (Hin : accounts connected.2 !! "100200" =
    Some {| s_account := known_account;
            s_connection := {| conn_account := known_account |} |}) by reflexivity.
  assert (Hsell : lower "Hold" <> "buy") by (vm_compute; discriminate).
  split; [exact Hin|]. split; [exact Hsell|].
  exact (anything_but_buy_is_sold connected.2 "100200" _ "EURUSD"
           (VFloat (float_of_int 1)) "Hold" VNone VNone Hin Hsell).
Defined.

(** A backend whose snapshot comes without a balance. *)
Lemma failed_connect_can_leave_a_session_witness :
  exists self',
    @connect_account demo_api_no_balance "100200" "s3cret" "Demo-1" "mt5" new_client =
      (Raise (PyException "MetaAPI connection failed: 'balance'"), self') /\
    accounts self' !! "100200" =
      Some {| s_account := known_account;
              s_connection := {| conn_account := known_account |} |} /\
    @place_trade demo_api_no_balance (VStr "100200") "EURUSD" (VFloat (float_of_int 1))
      "buy" VNone VNone self' =
      (@order_answer demo_api_no_balance {| conn_account := known_account |} "EURUSD"
         (VFloat (float_of_int 1)) "buy" VNone VNone,
       called self'
         [order_call {| conn_account := known_account |} "EURUSD"
            (VFloat (float_of_int 1)) "buy" VNone VNone]).
Proof.
  apply (@failed_connect_can_leave_a_session demo_api_no_balance "100200" "s3cret"
           "Demo-1" "mt5" known_account {| conn_account := known_account |}
           {["equity" := VInt 5]} new_client "EURUSD" (VFloat (float_of_int 1))
           "buy" VNone VNone).
  - repeat split; reflexivity.
  - reflexivity.
Defined.

End metaapi_client_more.

(** ** More on the document store gateway *)

Module appwrite_client_more.
Import appwrite_client appwrite_client_facts demo.

Lemma faults_serve (method : string) (p : path) (data : dict) (q : params) (db : store) :
  faults (serve method p data q db).2 = faults db.
Proof.
  unfold serve. destruct p as [c|c id].
  - destruct (String.eqb method "GET"); [done|].
    destruct (String.eqb method "POST"); [|done]. by destruct c.
  - destruct (List.find _ _); [|done].
    destruct (String.eqb method "GET"); [done|].
    destruct (_ || _); [by destruct c|].
    destruct (String.eqb method "DELETE"); [by destruct c|done].
Qed.

Lemma faults_exchange (method : string) (p : path) (data : dict) (q : params) (db : store) :
  faults (exchange method p data q db).2 = tail (faults db).
Proof.
  unfold exchange. destruct (faults db) as [|[msg|] fs] eqn:Hf;
    rewrite ?faults_serve; cbn; by rewrite Hf.
Qed.

Lemma has_id_lookup (uid : string) (d : dict) :
  has_id uid d = true -> d !! "$id" = Some (VStr uid).
Proof.
  unfold has_id, attr_is. destruct (d !! "$id") as [[]|]; try done.
  by intros ->%String.eqb_eq.
Qed.


(** What [get_user_by_id] returns: always a dict, the user's document or an
    error payload. *)
Lemma get_user_by_id_cases (uid : string) (db : store) :
  exists d,
    get_user_by_id uid db = (Ok (Some d), drop_fault db) /\
    ((exists msg, d = {["error" := VStr msg]}) \/
     (next_fault db = None /\ List.find (has_id uid) (users db) = Some d)).
Proof.
  unfold get_user_by_id, _make_request, try_except, bind, ret. cbn [existsb String.eqb Ascii.eqb Bool.eqb orb].
  destruct (next_fault db) as [msg|] eqn:Hq.
  - rewrite (next_fault_Some db msg) by done. eauto.
  - rewrite next_fault_None by done. cbn.
    destruct (List.find _ _) as [doc|] eqn:Hfind; cbn; eauto.
Qed.

(** A create that reaches the store appends the user, under a new id. *)
Lemma create_user_stores (db : store) (data : dict) :
  next_fault db = None ->
  let doc := <["$id" := VStr ("doc" ++ pretty (next_id db))]> data in
  exists db',
    create_user data db = (Ok doc, db') /\
    users db' = users db ++ [doc] /\
    positions db' = positions db /\
    faults db' = tail (faults db).
Proof.
  intros Hq doc. unfold create_user, _make_request.
  cbn [existsb String.eqb Ascii.eqb Bool.eqb orb].
  rewrite next_fault_None by done. cbn. by eexists.
Qed.

(** A lookup that fails in transport reports no user. *)
Lemma get_user_by_broker_account_transport_failure (db : store) (l s msg : string) :
  next_fault db = Some msg ->
  get_user_by_broker_account l s db = (Ok None, drop_fault db).
Proof.
  intros Hq. unfold get_user_by_broker_account, _make_request, bind, ret.
  cbn [existsb String.eqb Ascii.eqb Bool.eqb orb].
  rewrite (next_fault_Some db msg) by done.
  by rewrite lookup_singleton_ne.
Qed.

(** The collection after the document [id] took the attributes [data]. *)
Definition patched (id : string) (data : dict) (l : list dict) : list dict :=
  map (fun d => if has_id id d then data ∪ d else d) l.

Lemma has_id_union (id : string) (data d : dict) :
  data !! "$id" = None -> has_id id (data ∪ d) = has_id id d.
Proof. intros Hnone. unfold has_id, attr_is. by rewrite lookup_union_r. Qed.

Lemma find_patched (id : string) (data pos : dict) (l : list dict) :
  data !! "$id" = None ->
  List.find (has_id id) l = Some pos ->
  List.find (has_id id) (patched id data l) = Some (data ∪ pos).
Proof.
  intros Hnone. induction l as [|d l IH]; cbn; [done|].
  destruct (has_id id d) eqn:Hd.
  - intros [= ->]. by rewrite has_id_union, Hd.
  - intros Hfind. rewrite Hd. auto.
Qed.

Lemma elem_of_patched (id : string) (data d : dict) (l : list dict) :
  data !! "$id" = None ->
  has_id id d = false ->
  d ∈ patched id data l <-> d ∈ l.
Proof.
  intros Hnone Hd. unfold patched. rewrite list_elem_of_fmap. split.
  - intros (x & -> & Hx). destruct (has_id id x) eqn:Hidx; [|done].
    by rewrite has_id_union, Hidx in Hd.
  - intros Hin. exists d. by rewrite Hd.
Qed.


End appwrite_client_more.

(** ** More on the request handlers *)

Module main_more.
Import encryption appwrite_client main appwrite_client_facts main_facts
  appwrite_client_more encryption_facts encryption_more demo.

#[local] Arguments metaapi_client.place_trade : simpl never.
#[local] Arguments metaapi_client.connect_account : simpl never.
#[local] Arguments metaapi_client.get_account_info : simpl never.
#[local] Arguments metaapi_client.close_position : simpl never.
#[local] Arguments metaapi_client.get_positions : simpl never.
#[local] Arguments get_user_by_id : simpl never.
#[local] Arguments get_user_by_broker_account : simpl never.
#[local] Arguments update_user : simpl never.
#[local] Arguments create_user : simpl never.
#[local] Arguments create_position : simpl never.
#[local] Arguments encrypt_password : simpl never.
#[local] Arguments decrypt_password : simpl never.

Ltac run := main_facts.run.

(** The user document [connect_broker] creates, as it is sent and as the
    store keeps it. *)
Definition user_data_of `{Host} (data : BrokerConnect) (e : encrypted_password) : dict :=
  <["broker_account" := VStr (login data)]> (
  <["encrypted_password" := VStr (encryption.encrypted e)]> (
  <["iv" := VStr (encryption.iv e)]> (
  <["auth_tag" := VStr (encryption.auth_tag e)]> (
  <["server" := VStr (server data)]> (
  <["broker" := VStr (broker data)]> (
  <["account_type" := VStr (account_type data)]> (
  <["balance" := VFloat float_zero]> (
  <["equity" := VFloat float_zero]> (
  <["currency" := VStr "USD"]> (
  <["last_login" := VStr utcnow_isoformat]> ∅)))))))))).

Definition new_user_doc `{Host} (data : BrokerConnect) (e : encrypted_password)
    (id : string) : dict :=
  <["$id" := VStr id]> (user_data_of data e).

Section more.
Context `{Host} `{Pydantic} `{AesGcm} `{metaapi_client.MetaApi}.

(** The fields of an encodable password decrypt back to it. *)
Lemma encrypt_then_decrypt (rnd : nat -> ascii) (P : string) :
  encodable P = true ->
  exists e,
    encrypt_password rnd P = Ok e /\
    decrypt_password (encryption.encrypted e) (encryption.iv e) (encryption.auth_tag e)
      = Ok P.
Proof.
  intros HP.
  destruct (encrypt_password rnd P) as [e|exc] eqn:Henc.
  - exists e. split; [done|].
    apply encrypt_password_Ok in Henc as (_ & -> & -> & ->).
    unfold decrypt_password. rewrite !b64decode_b64encode. cbn [rbind].
    destruct (gcm_mode_urandom rnd
                (ctr_xor ENCRYPTION_KEY (urandom rnd 16) 0 (list_ascii_of_string P))
                ENCRYPTION_KEY (urandom rnd 16)) as [_ ->]. cbn [rbind].
    pose proof (gcm_decrypt_encrypt ENCRYPTION_KEY (urandom rnd 16)
                  (list_ascii_of_string P)) as Hdec.
    unfold gcm_encrypt in Hdec. cbn [fst snd] in Hdec. rewrite Hdec. cbn [rbind].
    unfold bytes_decode. unfold encodable in HP.
    by rewrite HP, string_of_list_ascii_of_string.
  - exfalso. unfold encrypt_password, str_encode in Henc.
    destruct (gcm_mode_urandom rnd [] [] []) as [Hmode _]. rewrite Hmode, HP in Henc.
    cbn [rbind] in Henc. unfold gcm_encrypt in Henc.
    rewrite !decode_ascii in Henc by apply b64encode_ascii. done.
Qed.

(** *** [GET /api/users/{user_id}] *)

(** X11: for a plain id the store does not hold,
    [GET /api/users/{user_id}] does not answer 404: the store's 404 comes
    back from the gateway as an error payload, the handler fails on
    [user["$id"]], and the answer is 500. *)
Theorem get_user_unknown_id_is_500 (w : world) (uid : string) :
  plain_id uid = true ->
  next_fault (the_store w) = None ->
  List.find (has_id uid) (users (the_store w)) = None ->
  get_user uid w = (Raise (KeyError "$id"), after_request w) /\
  status_of (app (get_user uid) w).1 = 500%Z.
Proof.
  intros _ Hq Hnone.
  assert (Hrun : get_user uid w = (Raise (KeyError "$id"), after_request w)).
  { destruct (get_user_by_id_cases uid (the_store w))
      as (d & Hget & [[msg ->]|[_ Hfind]]); [|by rewrite Hnone in Hfind].
    unfold get_user. run. rewrite Hget.
    rewrite (dict_truthy_lookup _ "error" (VStr msg)) by apply lookup_singleton_eq.
    cbn. unfold getitem. by rewrite lookup_singleton_ne. }
  split; [exact Hrun|]. unfold app. by rewrite Hrun.
Qed.

(** *** The status codes *)

Lemma guarded_status {A} (body : M world A) (detail : exn -> string) (w : world) :
  let handler := try_except body (fun e => raise (HTTPException 500 (detail e))) in
  status_of (app handler w).1 = 200%Z \/ status_of (app handler w).1 = 500%Z.
Proof.
  intros handler. subst handler. unfold app, try_except, raise.
  destruct (body w) as [[b|e] w']; cbn; auto.
Qed.

(** X12: [POST /api/users/connect], [GET /api/users/{id}/account] and
    [POST /api/trade] answer 200 or 500 and nothing else: the 404 and 503
    they raise inside their [try] are caught by their own
    [except Exception] and answered as 500. *)
Theorem handlers_answer_200_or_500 (w : world) :
  (forall data,
     status_of (app (connect_broker data) w).1 = 200%Z \/
     status_of (app (connect_broker data) w).1 = 500%Z) /\
  (forall uid,
     status_of (app (get_account_info uid) w).1 = 200%Z \/
     status_of (app (get_account_info uid) w).1 = 500%Z) /\
  (forall trade,
     status_of (app (place_trade trade) w).1 = 200%Z \/
     status_of (app (place_trade trade) w).1 = 500%Z).
Proof.
  split; [|split]; intros; unfold connect_broker, get_account_info, place_trade;
    apply guarded_status.
Qed.

(** *** [POST /api/trade] *)

Lemma positions_after_get_user_by_id (uid : string) (db : store) :
  positions (get_user_by_id uid db).2 = positions db.
Proof.
  destruct (get_user_by_id_cases uid db) as (d & -> & _). done.
Qed.

(** X13: [POST /api/trade] stores a position only after the trading backend
    executed the order of this request: in every run the Positions
    collection is what it was, unless the gateway returned a user for the
    id of the request and the handler's own call, [metaapi_client.place_trade]
    on that user's "broker_account" with the symbol, volume, type, stop
    loss and take profit of the request, returned a result. *)
Theorem position_only_after_execution (w : world) (trade : TradeRequest) :
  positions (the_store (place_trade trade w).2) = positions (the_store w) \/
  exists client user account_login result client',
    the_metaapi_client w = Some client /\
    (get_user_by_id (trade_user_id trade) (the_store w)).1 = Ok (Some user) /\
    user !! "broker_account" = Some account_login /\
    metaapi_client.place_trade account_login (symbol trade) (VFloat (volume trade))
      (type trade) (opt_float (stop_loss trade)) (opt_float (take_profit trade)) client
      = (Ok result, client').
Proof.
  destruct w as [[client|] db]; [|by left].
  unfold place_trade. run.
  pose proof (positions_after_get_user_by_id (trade_user_id trade) db) as Hpos.
  destruct (get_user_by_id (trade_user_id trade) db) as [[user|e] db1] eqn:Hget;
    cbn in Hpos |- *; [|by left].
  destruct user as [user|]; cbn; [|by left].
  destruct (dict_truthy user); cbn; [|by left].
  unfold getitem at 1.
  destruct (user !! "broker_account") as [account_login|] eqn:Hlogin; cbn; [|by left].
  destruct (metaapi_client.place_trade _ _ _ _ _ _ client) as [[result|e] client']
    eqn:Htrade; cbn; [|by left].
  right. by exists client, user, account_login, result, client'.
Qed.

(** X14: an order that the backend executed but whose position the store
    did not take (the create fails in transport) is answered as a 500: the
    order was sent, no position is stored, and nothing is retried or
    undone. *)
Theorem executed_but_not_stored_is_500
    (w : world) (trade : TradeRequest) (user : dict) (L msg : string)
    (client : metaapi_client.MetaAPIClient) (entry : metaapi_client.session)
    (result : dict) :
  the_metaapi_client w = Some client ->
  next_fault (the_store w) = None ->
  next_fault (drop_fault (the_store w)) = Some msg ->
  List.find (has_id (trade_user_id trade)) (users (the_store w)) = Some user ->
  user !! "broker_account" = Some (VStr L) ->
  metaapi_client.accounts client !! L = Some entry ->
  metaapi_client_facts.order_answer (metaapi_client.s_connection entry) (symbol trade)
    (VFloat (volume trade)) (type trade) (opt_float (stop_loss trade))
    (opt_float (take_profit trade)) = Ok result ->
  let served := app (place_trade trade) w in
  status_of served.1 = 500%Z /\
  positions (the_store served.2) = positions (the_store w) /\
  the_metaapi_client served.2 =
    Some (metaapi_client_facts.called client
            [metaapi_client_facts.order_call (metaapi_client.s_connection entry)
               (symbol trade) (VFloat (volume trade)) (type trade)
               (opt_float (stop_loss trade)) (opt_float (take_profit trade))]).
Proof.
  intros Hclient Hq1 Hq2 Hfind HL Hentry Hfill served. subst served.
  destruct w as [mc db]; cbn [the_metaapi_client the_store] in *; subst mc.
  assert (Hrun : place_trade trade {| the_metaapi_client := Some client; the_store := db |} =
    (Raise (HTTPException 500 (exn_str (KeyError "$id"))),
     {| the_metaapi_client :=
          Some (metaapi_client_facts.called client
                  [metaapi_client_facts.order_call (metaapi_client.s_connection entry)
                     (symbol trade) (VFloat (volume trade)) (type trade)
                     (opt_float (stop_loss trade)) (opt_float (take_profit trade))]);
        the_store := drop_fault (drop_fault db) |})).
  { unfold place_trade. run.
    rewrite (get_user_by_id_found _ _ user Hq1 Hfind).
    rewrite (dict_truthy_lookup _ _ _ HL). cbn.
    unfold getitem at 1. rewrite HL. cbn.
    rewrite (metaapi_client_facts.place_trade_cached _ _ entry) by done.
    rewrite Hfill. cbn.
    unfold create_position, _make_request.
    cbn [existsb String.eqb Ascii.eqb Bool.eqb orb].
    rewrite (next_fault_Some _ msg Hq2). cbn.
    unfold getitem. by rewrite lookup_singleton_ne. }
  unfold app. rewrite Hrun. by cbn.
Qed.

(** *** [POST /api/users/connect]: the first connect *)

Ltac read_doc :=
  unfold new_user_doc, user_data_of;
  repeat (rewrite lookup_insert_ne by done); rewrite ?lookup_insert_eq; try done.

(** Lines 163 to 185 of [connect_broker], reached when the lookup reported
    no user: the password is encrypted and a user document created. *)
Lemma resolve_user_creates (w : world) (data : BrokerConnect) :
  get_user_by_broker_account (login data) (server data) (the_store w) =
    (Ok None, drop_fault (the_store w)) ->
  next_fault (drop_fault (the_store w)) = None ->
  encodable (password data) = true ->
  exists e db',
    decrypt_password (encryption.encrypted e) (encryption.iv e) (encryption.auth_tag e)
      = Ok (password data) /\
    resolve_user data w =
      (Ok (VStr ("doc" ++ pretty (next_id (the_store w))), password data),
       {| the_metaapi_client := the_metaapi_client w; the_store := db' |}) /\
    users db' =
      users (the_store w) ++
        [new_user_doc data e ("doc" ++ pretty (next_id (the_store w)))] /\
    faults db' = tail (tail (faults (the_store w))).
Proof.
  intros Hlookup Hq2 Hpw.
  destruct (encrypt_then_decrypt os_urandom (password data) Hpw) as (e & Henc & Hdec).
  destruct (create_user_stores (drop_fault (the_store w)) (user_data_of data e) Hq2)
    as (db' & Hcreate & Husers & _ & Hfaults).
  exists e, db'. split; [exact Hdec|].
  split; [|split; [exact Husers|exact Hfaults]].
  unfold resolve_user. run. rewrite Hlookup. cbn [falsy_to_none].
  rewrite Henc. cbn [rbind the_store the_metaapi_client].
  change (create_user _ (drop_fault (the_store w)))
    with (create_user (user_data_of data e) (drop_fault (the_store w))).
  rewrite Hcreate. unfold getitem. by rewrite lookup_insert_eq.
Qed.





(** X17: a lookup that fails in transport is read as "no such user": with a
    user of this login and server already stored, [connect_broker]'s lines
    145 to 185 still create a second document for the same login and
    server, and the one-user-per-account invariant is lost. *)
Theorem failed_lookup_duplicates_user
    (w : world) (data : BrokerConnect) (user : dict) (msg : string) :
  next_fault (the_store w) = Some msg ->
  next_fault (drop_fault (the_store w)) = None ->
  user ∈ users (the_store w) ->
  user !! "broker_account" = Some (VStr (login data)) ->
  user !! "server" = Some (VStr (server data)) ->
  encodable (password data) = true ->
  exists doc id w',
    resolve_user data w = (Ok (VStr id, password data), w') /\
    users (the_store w') = users (the_store w) ++ [doc] /\
    doc !! "broker_account" = Some (VStr (login data)) /\
    doc !! "server" = Some (VStr (server data)) /\
    ~ one_user_per_account (the_store w').
Proof.
  intros Hq1 Hq2 Huser Hacc Hsrv Hpw.
  pose proof (get_user_by_broker_account_transport_failure (the_store w) (login data)
                (server data) msg Hq1) as Hlookup.
  destruct (resolve_user_creates w data Hlookup Hq2 Hpw)
    as (e & db' & Hdec & Hrun & Husers & _).
  eexists _, _, _. split; [exact Hrun|]. cbn [the_store].
  split; [exact Husers|]. split; [by read_doc|]. split; [by read_doc|].
  unfold one_user_per_account. rewrite Husers, map_app. cbn [map].
  intros [_ [Hdisjoint _]]%NoDup_app.
  apply (Hdisjoint (user_key user).2).
  - apply list_elem_of_fmap. by exists user.
  - apply list_elem_of_singleton. unfold user_key. cbn [snd].
    rewrite Hacc, Hsrv. by read_doc.
Qed.

(** *** [POST /api/users/connect]: the balance on record *)


End more.

Lemma get_user_unknown_id_is_500_witness :
  next_fault (the_store connected_world) = None /\
  List.find (has_id "u9") (users (the_store connected_world)) = None /\
  get_user "u9" connected_world = (Raise (KeyError "$id"), after_request connected_world) /\
  status_of (app (get_user "u9") connected_world).1 = 500%Z.
Proof.
  split; [reflexivity|]. split; [reflexivity|].
  apply (get_user_unknown_id_is_500 connected_world "u9"); reflexivity.
Defined.

Lemma executed_but_not_stored_is_500_witness :
  let served := app (place_trade demo_trade) flaky_world in
  status_of served.1 = 500%Z /\
  positions (the_store served.2) = positions (the_store flaky_world) /\
  the_metaapi_client served.2 =
    Some (metaapi_client_facts.called connected.2
            [metaapi_client_facts.order_call
               {| metaapi_client.conn_account := known_account |}
               "EURUSD" (VFloat (float_of_int 1)) "buy" VNone VNone]).
Proof.
  apply (executed_but_not_stored_is_500 flaky_world demo_trade demo_user "100200"
           "Read timed out" connected.2
           {| metaapi_client.s_account := known_account;
              metaapi_client.s_connection :=
                {| metaapi_client.conn_account := known_account |} |}
           demo_fill); reflexivity.
Defined.



Lemma failed_lookup_duplicates_user_witness :
  next_fault (the_store cut_off_world) = Some "Connection refused" /\
  demo_user ∈ users (the_store cut_off_world) /\
  exists doc id w',
    resolve_user demo_connect cut_off_world = (Ok (VStr id, password demo_connect), w') /\
    users (the_store w') = users (the_store cut_off_world) ++ [doc] /\
    doc !! "broker_account" = Some (VStr (login demo_connect)) /\
    doc !! "server" = Some (VStr (server demo_connect)) /\
    ~ one_user_per_account (the_store w').
Proof.
  assert (Hin : demo_user ∈ users (the_store cut_off_world)) by apply list_elem_of_here.
  split; [reflexivity|]. split; [exact Hin|].
  apply (failed_lookup_duplicates_user cut_off_world demo_connect demo_user
           "Connection refused"); try reflexivity. exact Hin.
Defined.



End main_more.

(** ** Positions and news *)

Module listing_facts.
Import encryption appwrite_client main appwrite_client_facts main_facts
  appwrite_client_more demo.

#[local] Arguments metaapi_client.get_positions : simpl never.
#[local] Arguments metaapi_client.close_position : simpl never.
#[local] Arguments get_user_by_id : simpl never.
#[local] Arguments get_position_by_id : simpl never.
#[local] Arguments update_position : simpl never.
#[local] Arguments appwrite_client.get_positions : simpl never.
#[local] Arguments appwrite_client.get_news : simpl never.
#[local] Arguments create_news : simpl never.

Ltac run := main_facts.run.

(** The predicates [get_positions] sends. *)
Definition position_query (user_id : string) (status : option string)
  : list (string * string) :=
  [("user_id", user_id)] ++
  match given status with
  | Some s => [("status", s)]
  | None => []
  end.

Section facts.
Context `{Host} `{Pydantic} `{AesGcm} `{metaapi_client.MetaApi} `{StoreOrder}.

Lemma list_documents_answers (c : collection) (q : listing) (db : store) :
  next_fault db = None ->
  list_documents c q db =
    (Ok (<["total" :=
            VInt (Z.of_nat (length (order_by (orderField q) (orderType q)
                                      (List.filter (matches (list_queries q))
                                         (docs_of db c)))))]>
         (<["documents" :=
             VList (page_of (list_limit q)
                      (order_by (orderField q) (orderType q)
                         (List.filter (matches (list_queries q)) (docs_of db c))))]> ∅)),
     drop_fault db).
Proof.
  unfold next_fault, list_documents, serve_listing. intros Hq.
  destruct (faults db) as [|[msg|] fs]; try done; by destruct c.
Qed.

Lemma list_documents_transport_failure (c : collection) (q : listing) (db : store)
    (msg : string) :
  next_fault db = Some msg ->
  list_documents c q db = (Ok {["error" := VStr msg]}, drop_fault db).
Proof.
  unfold next_fault, list_documents. intros Hq.
  destruct (faults db) as [|[m|] fs]; naive_solver.
Qed.

Lemma get_positions_answers (uid : string) (status : option string) (db : store) :
  next_fault db = None ->
  appwrite_client.get_positions uid status db =
    (Ok (VList (order_by "opened_at" "DESC"
                  (List.filter (matches (position_query uid status)) (positions db)))),
     drop_fault db).
Proof.
  intros Hq. unfold appwrite_client.get_positions, bind, ret.
  rewrite list_documents_answers by done. cbn [list_queries orderField orderType list_limit page_of docs_of].
  unfold dict_get. rewrite lookup_insert_ne by done. by rewrite lookup_insert_eq.
Qed.

Lemma get_positions_transport_failure (uid : string) (status : option string)
    (db : store) (msg : string) :
  next_fault db = Some msg ->
  appwrite_client.get_positions uid status db = (Ok (VList []), drop_fault db).
Proof.
  intros Hq. unfold appwrite_client.get_positions, bind, ret.
  rewrite (list_documents_transport_failure _ _ _ msg) by done.
  unfold dict_get. by rewrite lookup_singleton_ne.
Qed.


(** The sync with the trading backend never fails the handler and never
    writes to the store. *)
Lemma sync_positions_returns (uid status : string) (w : world) :
  exists w', sync_positions uid status w = (Ok tt, w') /\
             positions (the_store w') = positions (the_store w) /\
             users (the_store w') = users (the_store w).
Proof.
  unfold sync_positions. destruct w as [[client|] db]; cbn; [|by eexists].
  destruct (String.eqb status "open"); [|by eexists]. run.
  destruct (get_user_by_id_cases uid db) as (d & -> & _). cbn.
  destruct (dict_truthy d); cbn; [|by eexists].
  destruct (getitem d "broker_account") as [account_login|e]; cbn; [|by eexists].
  destruct (metaapi_client.get_positions account_login client) as [[l|e] client'];
    cbn; by eexists.
Qed.

(** What the handler makes of the gateway's listing. *)
Definition listing_answer (v : value) : result (list PositionResponse) :=
  match (l <- documents_of v ;; comprehension position_response l)%result with
  | Ok l => Ok l
  | Raise e => Raise status_is_a_str
  end.

Lemma get_positions_handler (uid status : string) (w : world) :
  exists v w',
    appwrite_client.get_positions uid (Some status) (the_store w)
      = (Ok v, drop_fault (the_store w)) /\
    get_positions uid status w = (listing_answer v, w').
Proof.
  assert (exists v, appwrite_client.get_positions uid (Some status) (the_store w)
                    = (Ok v, drop_fault (the_store w))) as [v Hlist].
  { destruct (next_fault (the_store w)) as [msg|] eqn:Hq.
    - eexists. by apply (get_positions_transport_failure _ _ _ msg).
    - eexists. by apply get_positions_answers. }
  exists v. unfold get_positions, listing_answer. run. rewrite Hlist.
  match goal with |- context [sync_positions uid status ?w1] =>
    destruct (sync_positions_returns uid status w1) as (w' & -> & _) end.
  destruct (documents_of v) as [l|e]; cbn [rbind]; [|by eexists].
  destruct (comprehension position_response l); by eexists.
Qed.

(** X20: the answer of [GET /api/users/{user_id}/positions] is made from
    the store's listing alone: whatever the trading backend answers in the
    sync step (or whether it is configured or connected at all), the body
    and status are the same. *)
Theorem positions_answer_ignores_backend
    (uid status : string) (db : store)
    (client1 client2 : option metaapi_client.MetaAPIClient) :
  (app (get_positions uid status) {| the_metaapi_client := client1; the_store := db |}).1 =
  (app (get_positions uid status) {| the_metaapi_client := client2; the_store := db |}).1.
Proof.
  destruct (get_positions_handler uid status
              {| the_metaapi_client := client1; the_store := db |})
    as (v1 & w1 & Hl1 & Hrun1).
  destruct (get_positions_handler uid status
              {| the_metaapi_client := client2; the_store := db |})
    as (v2 & w2 & Hl2 & Hrun2).
  cbn [the_store] in Hl1, Hl2. rewrite Hl1 in Hl2. injection Hl2 as <-.
  unfold app. rewrite Hrun1, Hrun2. by destruct (listing_answer v1) as [l|[]].
Qed.

(** X21: when the listing fails in transport, the gateway returns the
    empty list and [GET /api/users/{user_id}/positions] answers 200 with no
    positions: an outage of the store reads as "no positions". *)
Theorem positions_store_failure_is_empty_200
    (uid status msg : string) (w : world) :
  next_fault (the_store w) = Some msg ->
  (app (get_positions uid status) w).1 = Success [] /\
  status_of (app (get_positions uid status) w).1 = 200%Z.
Proof.
  intros Hq. destruct (get_positions_handler uid status w) as (v & w' & Hlist & Hrun).
  rewrite (get_positions_transport_failure _ _ _ msg Hq) in Hlist.
  injection Hlist as <-. unfold app. by rewrite Hrun.
Qed.

(** X22: a failure inside [GET /api/users/{user_id}/positions] never
    reaches the client with its cause: the [except] clause itself fails on
    [status.HTTP_500_INTERNAL_SERVER_ERROR] (there [status] is the text
    parameter), so every answer that is not a 200 is the generic 500 with
    the text of that [AttributeError]. *)
Theorem positions_failure_hides_the_cause (uid status : string) (w : world) :
  (exists l, (app (get_positions uid status) w).1 = Success l) \/
  (app (get_positions uid status) w).1 =
    JSONResponse 500
      {| error := "Internal server error";
         details := Some "'str' object has no attribute 'HTTP_500_INTERNAL_SERVER_ERROR'" |}.
Proof.
  destruct (get_positions_handler uid status w) as (v & w' & _ & Hrun).
  unfold app. rewrite Hrun. unfold listing_answer.
  destruct (rbind _ _) as [l|e]; [left; by eexists|by right].
Qed.

(** *** The gateway: a position by its id *)

Lemma get_position_by_id_cases (pid : string) (db : store) :
  exists d,
    get_position_by_id pid db = (Ok (Some d), drop_fault db) /\
    ((exists msg, d = {["error" := VStr msg]}) \/
     (next_fault db = None /\ List.find (has_id pid) (positions db) = Some d)).
Proof.
  unfold get_position_by_id, _make_request, try_except, bind, ret.
  cbn [existsb String.eqb Ascii.eqb Bool.eqb orb].
  destruct (next_fault db) as [msg|] eqn:Hq.
  - rewrite (next_fault_Some db msg) by done. eauto.
  - rewrite next_fault_None by done. cbn.
    destruct (List.find _ _) as [doc|] eqn:Hfind; cbn; eauto.
Qed.

Lemma get_position_by_id_found (pid : string) (db : store) (pos : dict) :
  next_fault db = None ->
  List.find (has_id pid) (positions db) = Some pos ->
  get_position_by_id pid db = (Ok (Some pos), drop_fault db).
Proof.
  intros Hq Hfind. unfold get_position_by_id, _make_request, try_except, bind, ret.
  cbn [existsb String.eqb Ascii.eqb Bool.eqb orb].
  rewrite next_fault_None by done. cbn. by rewrite Hfind.
Qed.

(** What a lookup by id returns is truthy. *)
Lemma looked_up_truthy (id : string) (l : list dict) (d : dict) (P : Prop) :
  (exists msg, d = {["error" := VStr msg]}) \/
  (P /\ List.find (has_id id) l = Some d) ->
  dict_truthy d = true.
Proof.
  intros [[msg ->]|[_ Hfind]].
  - apply (dict_truthy_lookup _ "error" (VStr msg)), lookup_singleton_eq.
  - apply find_some in Hfind as [_ Hid%has_id_lookup].
    by apply (dict_truthy_lookup _ _ _ Hid).
Qed.

(** *** The gateway: updating a position *)

Lemma update_position_stores (db : store) (pid : string) (data pos : dict) :
  next_fault db = None ->
  List.find (has_id pid) (positions db) = Some pos ->
  exists db',
    update_position pid data db = (Ok (data ∪ pos), db') /\
    positions db' = patched pid data (positions db) /\
    users db' = users db.
Proof.
  intros Hq Hfind. unfold update_position, _make_request.
  cbn [existsb String.eqb Ascii.eqb Bool.eqb orb].
  rewrite next_fault_None by done. cbn. rewrite Hfind. cbn. by eexists.
Qed.

Lemma update_position_transport_failure (db : store) (pid : string) (data : dict)
    (msg : string) :
  next_fault db = Some msg ->
  update_position pid data db = (Ok {["error" := VStr msg]}, drop_fault db).
Proof.
  intros Hq. unfold update_position, _make_request.
  cbn [existsb String.eqb Ascii.eqb Bool.eqb orb].
  by rewrite (next_fault_Some db msg).
Qed.

Lemma update_position_returns (db : store) (pid : string) (data : dict) :
  exists r db', update_position pid data db = (Ok r, db').
Proof.
  unfold update_position, _make_request.
  cbn [existsb String.eqb Ascii.eqb Bool.eqb orb].
  destruct (exchange _ _ _ _ _) as [[[content|]|msg] db']; by eexists _, _.
Qed.

(** *** [POST /api/positions/close] *)

(** [result.get('profit', 0) or result.get('pl', 0)]. *)
Definition closing_profit (result : dict) : value :=
  py_or (dict_get result "profit" (VInt 0)) (dict_get result "pl" (VInt 0)).

(** The [update_data] and the body of a close. *)
Definition closing_update (result : dict) (current_price : value) : dict :=
  <["current_price" := dict_get result "closePrice" current_price]> (
  <["profit" := closing_profit result]> (
  <["status" := VStr "closed"]> (
  <["closed_at" := VStr utcnow_isoformat]> ∅))).

Definition closing_body (request : ClosePositionRequest) (result : dict) : dict :=
  <["success" := VBool true]> (
  <["message" := VStr "Position closed successfully"]> (
  <["position_id" := VStr (close_position_id request)]> (
  <["profit" := closing_profit result]> ∅))).

(** The run of the handler up to its update of the store: the position and
    the user are found, the session is cached and the backend closes. *)
Lemma close_position_runs
    (request : ClosePositionRequest) (client : metaapi_client.MetaAPIClient) (db : store)
    (pos user : dict) (L : string) (entry : metaapi_client.session)
    (sym bpid price : value) (result : dict) :
  next_fault db = None ->
  next_fault (drop_fault db) = None ->
  List.find (has_id (close_position_id request)) (positions db) = Some pos ->
  List.find (has_id (close_user_id request)) (users db) = Some user ->
  user !! "broker_account" = Some (VStr L) ->
  pos !! "symbol" = Some sym ->
  pos !! "broker_position_id" = Some bpid ->
  pos !! "current_price" = Some price ->
  metaapi_client.accounts client !! L = Some entry ->
  metaapi_client.connection_close_position (metaapi_client.s_connection entry) bpid
    = Ok result ->
  format_2f (closing_profit result) = Ok tt ->
  close_position request {| the_metaapi_client := Some client; the_store := db |} =
    (Ok (closing_body request result),
     {| the_metaapi_client :=
          Some (metaapi_client_facts.called client
                  [metaapi_client.close_position_call
                     (metaapi_client.s_connection entry) bpid]);
        the_store :=
          (update_position (close_position_id request) (closing_update result price)
             (drop_fault (drop_fault db))).2 |}).
Proof.
  intros Hq1 Hq2 Hpos Huser HL Hsym Hbpid Hprice Hentry Hclose Hfmt.
  pose proof (has_id_lookup _ _ (proj2 (find_some _ _ Hpos))) as Hid.
  destruct (update_position_returns (drop_fault (drop_fault db))
              (close_position_id request) (closing_update result price))
    as (r & db' & Hupd).
  rewrite Hupd. unfold close_position. run.
  rewrite (get_position_by_id_found _ _ pos Hq1 Hpos).
  rewrite (dict_truthy_lookup _ _ _ Hid). cbn.
  rewrite (get_user_by_id_found _ _ user Hq2 Huser).
  rewrite (dict_truthy_lookup _ _ _ HL). cbn.
  unfold getitem. rewrite Hid, Hsym, HL, Hbpid. cbn.
  rewrite (metaapi_client_facts.close_position_cached _ _ entry) by done.
  rewrite Hclose. cbn. rewrite Hprice. cbn.
  change (update_position _ _ _) with
    (update_position (close_position_id request) (closing_update result price)
       (drop_fault (drop_fault db))).
  rewrite Hupd. cbn.
  change (format_2f _) with (format_2f (closing_profit result)).
  by rewrite Hfmt.
Qed.

(** X23: a close that the backend carried out and the store took marks the
    stored position closed: its status is "closed", its closing time is now,
    its profit is the one of the backend's answer, its owner and id are
    what they were, and no other position is touched.  The answer is a 200
    with that profit.  The position need not belong to the user of the
    request: only the session of that user is used. *)
Theorem close_position_marks_closed
    (w : world) (request : ClosePositionRequest)
    (client : metaapi_client.MetaAPIClient) (pos user : dict) (L : string)
    (entry : metaapi_client.session) (sym bpid price : value) (result : dict) :
  the_metaapi_client w = Some client ->
  next_fault (the_store w) = None ->
  next_fault (drop_fault (the_store w)) = None ->
  next_fault (drop_fault (drop_fault (the_store w))) = None ->
  List.find (has_id (close_position_id request)) (positions (the_store w)) = Some pos ->
  List.find (has_id (close_user_id request)) (users (the_store w)) = Some user ->
  user !! "broker_account" = Some (VStr L) ->
  pos !! "symbol" = Some sym ->
  pos !! "broker_position_id" = Some bpid ->
  pos !! "current_price" = Some price ->
  metaapi_client.accounts client !! L = Some entry ->
  metaapi_client.connection_close_position (metaapi_client.s_connection entry) bpid
    = Ok result ->
  format_2f (closing_profit result) = Ok tt ->
  exists body w' doc,
    app (close_position request) w = (Success body, w') /\
    body !! "success" = Some (VBool true) /\
    body !! "profit" = Some (closing_profit result) /\
    List.find (has_id (close_position_id request)) (positions (the_store w')) = Some doc /\
    doc !! "status" = Some (VStr "closed") /\
    doc !! "closed_at" = Some (VStr utcnow_isoformat) /\
    doc !! "profit" = Some (closing_profit result) /\
    doc !! "user_id" = pos !! "user_id" /\
    (forall d, has_id (close_position_id request) d = false ->
               d ∈ positions (the_store w') <-> d ∈ positions (the_store w)) /\
    the_metaapi_client w' =
      Some (metaapi_client_facts.called client
              [metaapi_client.close_position_call (metaapi_client.s_connection entry) bpid]).
Proof.
  intros Hclient Hq1 Hq2 Hq3 Hpos Huser HL Hsym Hbpid Hprice Hentry Hclose Hfmt.
  destruct w as [mc db]; cbn [the_metaapi_client the_store] in *; subst mc.
  pose proof (close_position_runs request client db pos user L entry sym bpid price result
                Hq1 Hq2 Hpos Huser HL Hsym Hbpid Hprice Hentry Hclose Hfmt) as Hrun.
  destruct (update_position_stores (drop_fault (drop_fault db)) (close_position_id request)
              (closing_update result price) pos Hq3 Hpos) as (db' & Hupd & Hstored & _).
  rewrite Hupd in Hrun. cbn [snd] in Hrun, Hstored.
  assert (Hnone : closing_update result price !! "$id" = None) by done.
  eexists _, _, (closing_update result price ∪ pos).
  split; [unfold app; by rewrite Hrun|]. cbn [the_store the_metaapi_client].
  rewrite Hstored.
  split; [done|]. split; [done|].
  split; [by apply find_patched|].
  do 3 (split; [apply lookup_union_Some_l; unfold closing_update;
                repeat (rewrite lookup_insert_ne by done); by rewrite lookup_insert_eq|]).
  split; [by apply lookup_union_r|].
  split; [|done]. intros d Hd. by apply elem_of_patched.
Qed.

(** X24: when the backend closed the position but the update of the store
    fails in transport, the handler still answers 200 "Position closed
    successfully": the error payload of [update_position] is not looked at,
    and the stored positions are what they were. *)
Theorem close_store_failure_is_silent
    (w : world) (request : ClosePositionRequest)
    (client : metaapi_client.MetaAPIClient) (pos user : dict) (L msg : string)
    (entry : metaapi_client.session) (sym bpid price : value) (result : dict) :
  the_metaapi_client w = Some client ->
  next_fault (the_store w) = None ->
  next_fault (drop_fault (the_store w)) = None ->
  next_fault (drop_fault (drop_fault (the_store w))) = Some msg ->
  List.find (has_id (close_position_id request)) (positions (the_store w)) = Some pos ->
  List.find (has_id (close_user_id request)) (users (the_store w)) = Some user ->
  user !! "broker_account" = Some (VStr L) ->
  pos !! "symbol" = Some sym ->
  pos !! "broker_position_id" = Some bpid ->
  pos !! "current_price" = Some price ->
  metaapi_client.accounts client !! L = Some entry ->
  metaapi_client.connection_close_position (metaapi_client.s_connection entry) bpid
    = Ok result ->
  format_2f (closing_profit result) = Ok tt ->
  exists body w',
    app (close_position request) w = (Success body, w') /\
    body !! "message" = Some (VStr "Position closed successfully") /\
    positions (the_store w') = positions (the_store w) /\
    the_metaapi_client w' =
      Some (metaapi_client_facts.called client
              [metaapi_client.close_position_call (metaapi_client.s_connection entry) bpid]).
Proof.
  intros Hclient Hq1 Hq2 Hq3 Hpos Huser HL Hsym Hbpid Hprice Hentry Hclose Hfmt.
  destruct w as [mc db]; cbn [the_metaapi_client the_store] in *; subst mc.
  pose proof (close_position_runs request client db pos user L entry sym bpid price result
                Hq1 Hq2 Hpos Huser HL Hsym Hbpid Hprice Hentry Hclose Hfmt) as Hrun.
  rewrite (update_position_transport_failure _ _ _ msg Hq3) in Hrun.
  eexists _, _. split; [unfold app; by rewrite Hrun|]. done.
Qed.

(** X25: closing a position the store does not hold is not answered 404
    (the ids of the request being plain): the store's 404 comes back from
    the gateway as an error payload, which passes [if not position]; the
    handler fails on [position['$id']] and answers 500.  The trading backend
    is not called and the store is not written. *)
Theorem close_unknown_position_is_500
    (w : world) (request : ClosePositionRequest)
    (client : metaapi_client.MetaAPIClient) :
  plain_id (close_position_id request) = true ->
  plain_id (close_user_id request) = true ->
  the_metaapi_client w = Some client ->
  next_fault (the_store w) = None ->
  List.find (has_id (close_position_id request)) (positions (the_store w)) = None ->
  close_position request w =
    (Raise (HTTPException 500 "'$id'"), after_request (after_request w)) /\
  status_of (app (close_position request) w).1 = 500%Z.
Proof.
  intros _ _ Hclient Hq Hnone.
  destruct w as [mc db]; cbn [the_metaapi_client the_store] in *; subst mc.
  assert (Hrun : close_position request
                   {| the_metaapi_client := Some client; the_store := db |} =
    (Raise (HTTPException 500 "'$id'"),
     after_request (after_request {| the_metaapi_client := Some client; the_store := db |}))).
  { destruct (get_position_by_id_cases (close_position_id request) db)
      as (d & Hget & [[msg ->]|[_ Hfind]]); [|by rewrite Hnone in Hfind].
    destruct (get_user_by_id_cases (close_user_id request) (drop_fault db))
      as (u & Huser & Hu).
    unfold close_position. run. rewrite Hget.
    rewrite (dict_truthy_lookup _ "error" (VStr msg)) by apply lookup_singleton_eq.
    cbn. rewrite Huser. rewrite (looked_up_truthy _ _ _ _ Hu). cbn.
    unfold getitem. by rewrite lookup_singleton_ne. }
  split; [exact Hrun|]. unfold app. by rewrite Hrun.
Qed.

Lemma positions_after_get_position_by_id (pid : string) (db : store) :
  positions (get_position_by_id pid db).2 = positions db.
Proof. destruct (get_position_by_id_cases pid db) as (d & -> & _). done. Qed.

(** X26: [POST /api/positions/close] writes to the Positions collection
    only after the trading backend closed the position of this request: in
    every run the collection is what it was, unless the gateway returned a
    position and a user for the ids of the request and the handler's own
    call, [metaapi_client.close_position] on that user's "broker_account"
    and that position's "broker_position_id", returned a result. *)
Theorem closed_only_after_broker (w : world) (request : ClosePositionRequest) :
  positions (the_store (close_position request w).2) = positions (the_store w) \/
  exists client pos user account_login broker_position_id result client',
    the_metaapi_client w = Some client /\
    (get_position_by_id (close_position_id request) (the_store w)).1 = Ok (Some pos) /\
    (get_user_by_id (close_user_id request) (drop_fault (the_store w))).1
      = Ok (Some user) /\
    user !! "broker_account" = Some account_login /\
    pos !! "broker_position_id" = Some broker_position_id /\
    metaapi_client.close_position account_login broker_position_id client
      = (Ok result, client').
Proof.
  destruct w as [[client|] db]; [|by left].
  unfold close_position. run.
  destruct (get_position_by_id_cases (close_position_id request) db)
    as (pos & Hpos & _). rewrite Hpos.
  destruct (dict_truthy pos); cbn; [|by left].
  destruct (get_user_by_id_cases (close_user_id request) (drop_fault db))
    as (user & Huser & _). rewrite Huser.
  destruct (dict_truthy user); cbn; [|by left].
  destruct (getitem pos "$id"); cbn; [|by left].
  destruct (getitem pos "symbol"); cbn; [|by left].
  unfold getitem.
  destruct (user !! "broker_account") as [account_login|] eqn:Hlogin; cbn; [|by left].
  destruct (pos !! "broker_position_id") as [bpid|] eqn:Hbpid; cbn; [|by left].
  destruct (metaapi_client.close_position account_login bpid client)
    as [[result|e] client'] eqn:Hclose; cbn; [|by left].
  right. by exists client, pos, user, account_login, bpid, result, client'.
Qed.

(** *** The gateway: news *)

(** The predicates [get_news] sends. *)
Definition news_query (category : option string) : list (string * string) :=
  match given category with
  | Some c => [("category", c)]
  | None => []
  end.

Lemma get_news_answers (category : option string) (limit : Z) (db : store) :
  next_fault db = None ->
  appwrite_client.get_news category limit db =
    (Ok (VList (page_of (Some limit)
                  (order_by "published_at" "DESC"
                     (List.filter (matches (news_query category)) (news db))))),
     drop_fault db).
Proof.
  intros Hq. unfold appwrite_client.get_news, bind, ret.
  rewrite list_documents_answers by done.
  cbn [list_queries orderField orderType list_limit docs_of].
  unfold dict_get. rewrite lookup_insert_ne by done. by rewrite lookup_insert_eq.
Qed.

Lemma get_news_transport_failure (category : option string) (limit : Z) (db : store)
    (msg : string) :
  next_fault db = Some msg ->
  appwrite_client.get_news category limit db = (Ok (VList []), drop_fault db).
Proof.
  intros Hq. unfold appwrite_client.get_news, bind, ret.
  rewrite (list_documents_transport_failure _ _ _ msg) by done.
  unfold dict_get. by rewrite lookup_singleton_ne.
Qed.

Lemma get_news_returns (category : option string) (limit : Z) (db : store) :
  exists v, appwrite_client.get_news category limit db = (Ok v, drop_fault db).
Proof.
  destruct (next_fault db) as [msg|] eqn:Hq.
  - eexists. by apply (get_news_transport_failure _ _ _ msg).
  - eexists. by apply get_news_answers.
Qed.


(** A create that reaches the store appends the article, under a new id. *)
Lemma create_news_stores (db : store) (data : dict) :
  next_fault db = None ->
  exists db',
    create_news data db = (Ok (<["$id" := VStr ("doc" ++ pretty (next_id db))]> data), db') /\
    news db' = news db ++ [<["$id" := VStr ("doc" ++ pretty (next_id db))]> data] /\
    next_id db' = S (next_id db) /\
    faults db' = tail (faults db).
Proof.
  intros Hq. unfold create_news, _make_request.
  cbn [existsb String.eqb Ascii.eqb Bool.eqb orb].
  rewrite next_fault_None by done. cbn. by eexists.
Qed.

(** *** [GET /api/news] *)

(** The articles as the store holds them, created one after the other from
    the id counter [n] on. *)
Fixpoint stored_as (n : nat) (articles : list dict) : list dict :=
  match articles with
  | [] => []
  | a :: rest => <["$id" := VStr ("doc" ++ pretty n)]> a :: stored_as (S n) rest
  end.

(** What the handler makes of the gateway's listing. *)
Definition news_answer (v : value) : result (list NewsResponse) :=
  match (l <- documents_of v ;; comprehension news_response l)%result with
  | Ok l => Ok l
  | Raise e => Raise (HTTPException 500 (exn_str e))
  end.

(** The loop over [sample_news], when both requests reach the store. *)
Lemma create_all_stores (articles : list dict) (db : store) :
  (forall i, i < length articles -> nth i (faults db) None = None) ->
  exists db',
    create_all articles db = (Ok tt, db') /\
    news db' = news db ++ stored_as (next_id db) articles /\
    next_id db' = next_id db + length articles /\
    faults db' = drop (length articles) (faults db).
Proof.
  revert db. induction articles as [|a rest IH]; intros db Hq.
  - exists db. cbn. by rewrite app_nil_r, Nat.add_0_r, drop_0.
  - assert (Hq1 : next_fault db = None).
    { specialize (Hq 0 ltac:(cbn; lia)). unfold next_fault.
      destruct (faults db) as [|[msg|] fs]; cbn in *; congruence. }
    destruct (create_news_stores db a Hq1) as (dba & Hca & Hna & Hida & Hfa).
    destruct (IH dba) as (db' & Hrest & Hnews & Hid & Hf).
    { intros i Hi. rewrite Hfa. specialize (Hq (S i) ltac:(cbn; lia)).
      destruct (faults db); [by destruct i|exact Hq]. }
    exists db'. cbn [create_all stored_as length]. unfold bind. rewrite Hca, Hrest.
    split; [done|]. split; [by rewrite Hnews, Hna, Hida, <- app_assoc|].
    split; [rewrite Hid, Hida; lia|]. rewrite Hf, Hfa.
    destruct (faults db); cbn [tail length drop]; by rewrite ?drop_nil.
Qed.

(** When the first listing comes back empty and the next two requests reach
    the store, the two sample articles are stored and the news are listed
    again. *)
Lemma get_news_seeds (category : option string) (limit : Z) (w : world) (db1 : store) :
  appwrite_client.get_news category limit (the_store w) = (Ok (VList []), db1) ->
  next_fault db1 = None ->
  next_fault (drop_fault db1) = None ->
  exists db2 v,
    news db2 = news db1 ++ stored_as (next_id db1) sample_news /\
    faults db2 = tail (tail (faults db1)) /\
    appwrite_client.get_news category limit db2 = (Ok v, drop_fault db2) /\
    get_news category limit w =
      (news_answer v,
       {| the_metaapi_client := the_metaapi_client w; the_store := drop_fault db2 |}).
Proof.
  intros Hfirst Hq1 Hq2.
  destruct (create_all_stores sample_news db1) as (db2 & Hcreate & Hnews & _ & Hf).
  { unfold next_fault in Hq1, Hq2. cbn in Hq2 |- *. intros i Hi.
    destruct (faults db1) as [|[m1|] [|[m2|] fs]]; try done;
      destruct i as [|[|i]]; try done; cbn in Hi; lia. }
  destruct (get_news_returns category limit db2) as (v & Hsecond).
  exists db2, v. split; [exact Hnews|]. split.
  { rewrite Hf. cbn. by destruct (faults db1) as [|? [|? ?]]. }
  split; [exact Hsecond|].
  unfold get_news, news_answer. run. rewrite Hfirst.
  cbn [truthy the_store the_metaapi_client]. rewrite Hcreate.
  cbn [the_store the_metaapi_client]. rewrite Hsecond.
  destruct (documents_of v) as [l|e]; cbn [rbind]; [|done].
  by destruct (comprehension news_response l).
Qed.






(** X29: when the listing of the news fails in transport and the store is
    reachable again right after, the handler takes the failure for an empty
    collection and stores the two sample articles, whatever the store
    already holds. *)
Theorem failed_news_listing_stores_samples
    (category : option string) (limit : Z) (msg : string) (w : world) :
  next_fault (the_store w) = Some msg ->
  next_fault (drop_fault (the_store w)) = None ->
  next_fault (drop_fault (drop_fault (the_store w))) = None ->
  let served := app (get_news category limit) w in
  news (the_store served.2) =
    news (the_store w) ++ stored_as (next_id (the_store w)) sample_news.
Proof.
  intros Hq1 Hq2 Hq3 served. subst served.
  pose proof (get_news_transport_failure category limit _ msg Hq1) as Hfirst.
  destruct (get_news_seeds category limit w _ Hfirst Hq2 Hq3)
    as (db2 & v & Hnews & _ & _ & Hrun).
  by rewrite app_world, Hrun.
Qed.

(** X30: [POST /api/positions/close] and [GET /api/news] answer 200 or 500
    and nothing else: the 503 and the two 404 that [close_position] raises
    inside its [try] are caught by its own [except Exception] and answered
    as 500. *)
Theorem close_and_news_answer_200_or_500 (w : world) :
  (forall request,
     status_of (app (close_position request) w).1 = 200%Z \/
     status_of (app (close_position request) w).1 = 500%Z) /\
  (forall category limit,
     status_of (app (get_news category limit) w).1 = 200%Z \/
     status_of (app (get_news category limit) w).1 = 500%Z).
Proof.
  split; intros; unfold close_position, get_news; apply main_more.guarded_status.
Qed.

End facts.


Lemma positions_store_failure_is_empty_200_witness :
  (app (get_positions "u1" "open") cut_off_world).1 = Success [] /\
  status_of (app (get_positions "u1" "open") cut_off_world).1 = 200%Z.
Proof.
  apply (positions_store_failure_is_empty_200 "u1" "open" "Connection refused"
           cut_off_world).
  reflexivity.
Defined.

(** The user "u1" closes the position "p1" of the user "u2". *)
Lemma close_position_marks_closed_witness :
  exists body w' doc,
    app (@close_position demo_host demo_api_no_balance demo_close) trading_world
      = (Success body, w') /\
    body !! "success" = Some (VBool true) /\
    body !! "profit" = Some (closing_profit ∅) /\
    List.find (has_id "p1") (positions (the_store w')) = Some doc /\
    doc !! "status" = Some (VStr "closed") /\
    doc !! "closed_at" = Some (VStr utcnow_isoformat) /\
    doc !! "profit" = Some (closing_profit ∅) /\
    doc !! "user_id" = demo_position !! "user_id" /\
    (forall d, has_id "p1" d = false ->
               d ∈ positions (the_store w') <-> d ∈ positions (the_store trading_world)) /\
    the_metaapi_client w' =
      Some (metaapi_client_facts.called connected.2
              [metaapi_client.close_position_call
                 {| metaapi_client.conn_account := known_account |} (VStr "46870472")]).
Proof.
  apply (@close_position_marks_closed demo_host demo_api_no_balance
           trading_world demo_close connected.2 demo_position demo_user "100200"
           {| metaapi_client.s_account := known_account;
              metaapi_client.s_connection :=
                {| metaapi_client.conn_account := known_account |} |}
           (VStr "EURUSD") (VStr "46870472") (VFloat (float_of_int 2)) ∅);
    reflexivity.
Defined.

Lemma close_store_failure_is_silent_witness :
  exists body w',
    app (@close_position demo_host demo_api_no_balance demo_close) lagging_world
      = (Success body, w') /\
    body !! "message" = Some (VStr "Position closed successfully") /\
    positions (the_store w') = positions (the_store lagging_world) /\
    the_metaapi_client w' =
      Some (metaapi_client_facts.called connected.2
              [metaapi_client.close_position_call
                 {| metaapi_client.conn_account := known_account |} (VStr "46870472")]).
Proof.
  apply (@close_store_failure_is_silent demo_host demo_api_no_balance
           lagging_world demo_close connected.2 demo_position demo_user "100200"
           "Read timed out"
           {| metaapi_client.s_account := known_account;
              metaapi_client.s_connection :=
                {| metaapi_client.conn_account := known_account |} |}
           (VStr "EURUSD") (VStr "46870472") (VFloat (float_of_int 2)) ∅);
    reflexivity.
Defined.

Lemma close_unknown_position_is_500_witness :
  close_position demo_close connected_world =
    (Raise (HTTPException 500 "'$id'"), after_request (after_request connected_world)) /\
  status_of (app (close_position demo_close) connected_world).1 = 500%Z.
Proof.
  apply (close_unknown_position_is_500 connected_world demo_close connected.2);
    reflexivity.
Defined.



Lemma failed_news_listing_stores_samples_witness :
  let served := app (get_news None 10) recovering_world in
  news (the_store served.2) =
    news (the_store recovering_world) ++
    stored_as (next_id (the_store recovering_world)) sample_news.
Proof.
  apply (failed_news_listing_stores_samples None 10 "Read timed out" recovering_world);
    reflexivity.
Defined.

End listing_facts.
